(** * deleteApi: removal of an API (or of one of its endpoints) from the API gateway

    Shallow embedding of [core/routemgmt/deleteApi/deleteApi.js]
    ([validateArgs] and [main]) and of the properties its specification
    states about the deletion workflow.

    Modelling conventions
    - A field of the [message] JSON object is an [option string]: [None] is a
      field that is not there ([undefined]), [Some s] a string value (the
      header of the source documents every parameter as a string).
    - JavaScript truthiness on such a field: [undefined] and the empty string
      are falsy, every other string is truthy.
    - [validateArgs] assigns to [message.operation] and [main] assigns to
      [message.namespace]; the updated message is passed along explicitly.
    - Strings are strings of bytes, and [toLowerCase] is the lower case of
      ASCII letters, which is what JavaScript does on the HTTP method names
      an [operation] holds.
    - A promise is modelled by the way it settles. The promise chain of
      [main] is a computation over the state of the gateway that also records
      every request made to it, in order. A rejected promise that nothing
      is chained to has no effect on the chain; what the runtime does with
      an unhandled rejection is outside of the model.
    - The functions of [utils.js] that talk to the gateway are a parameter
      (a [GatewayClient]): any gateway, with any state and any answers. The
      functions of [utils.js] that edit documents are a parameter too (an
      [Env]), except where a property is about the edit itself: [utils.js]
      is not among the sources, and the editor is then the one the
      specification describes ([EndpointEditor]).
    - [console.log]/[console.error] lines have no bearing on the result and
      are left out. *)

From stdpp Require Import gmap strings list fin_maps.
From Stdlib Require Import Ascii String.

Local Open Scope string_scope.
Local Open Scope list_scope.

(** ** JavaScript values of the message fields *)

Module Js.

(** [!!v] of JavaScript, for a field that is a string or [undefined]. *)
Definition truthy (v : option string) : bool :=
  match v with
  | None => false
  | Some s => negb (String.eqb s "")
  end.

(** Truthiness of a string value (the result of [validateArgs]). *)
Definition truthy_string (s : string) : bool := negb (String.eqb s "").

(** [a || b]. *)
Definition or (a b : option string) : option string :=
  if truthy a then a else b.

(** [a || 'literal']: the result is always a string. *)
Definition or_default (a : option string) (d : string) : string :=
  match a with
  | Some s => if String.eqb s "" then d else s
  | None => d
  end.

(** String coercion of a field inside ['text' + v]. *)
Definition to_string (v : option string) : string :=
  match v with
  | Some s => s
  | None => "undefined"
  end.

Definition lower_ascii (c : ascii) : ascii :=
  let n := nat_of_ascii c in
  if (65 <=? n)%nat && (n <=? 90)%nat then ascii_of_nat (n + 32) else c.

(** [s.toLowerCase()] on strings of ASCII characters (the HTTP method
    names an [operation] holds). *)
Fixpoint toLowerCase (s : string) : string :=
  match s with
  | EmptyString => EmptyString
  | String c r => String (lower_ascii c) (toLowerCase r)
  end.

End Js.

(** ** The message *)

Record Message := mkMessage {
  gwUrl : option string;
  gwUser : option string;
  gwPwd : option string;
  namespace : option string;
  __ow_meta_namespace : option string;
  tenantInstance : option string;
  basepath : option string;
  relpath : option string;
  operation : option string
}.

(** [message.operation = v] *)
Definition set_operation (v : option string) (m : Message) : Message :=
  mkMessage (gwUrl m) (gwUser m) (gwPwd m) (namespace m) (__ow_meta_namespace m)
            (tenantInstance m) (basepath m) (relpath m) v.

(** [message.namespace = v] *)
Definition set_namespace (v : option string) (m : Message) : Message :=
  mkMessage (gwUrl m) (gwUser m) (gwPwd m) v (__ow_meta_namespace m)
            (tenantInstance m) (basepath m) (relpath m) (operation m).

(** [message.relpath = v] (used to state properties, not by the source) *)
Definition set_relpath (v : option string) (m : Message) : Message :=
  mkMessage (gwUrl m) (gwUser m) (gwPwd m) (namespace m) (__ow_meta_namespace m)
            (tenantInstance m) (basepath m) v (operation m).

(** ** validateArgs

    Returns the error text (the empty string when the arguments are fine)
    together with the message as the function leaves it. *)
Definition validateArgs (message : option Message) : string * option Message :=
  match message with
  | None => ("Internal error.  A message parameter was not supplied.", message)
  | Some m =>
    if negb (Js.truthy (gwUrl m)) then
      ("gwUrl is required.", message)
    else if negb (Js.truthy (__ow_meta_namespace m)) then
      ("__ow_meta_namespace is required.", message)
    else if negb (Js.truthy (basepath m)) then
      ("basepath is required.", message)
    else if negb (Js.truthy (relpath m)) && Js.truthy (operation m) then
      ("When specifying an operation, the relpath is required.", message)
    else if Js.truthy (operation m) then
      ("", Some (set_operation (Js.toLowerCase <$> operation m) m))
    else
      ("", message)
  end.

(** ** Data exchanged with the gateway *)

(** [gwInfo]: the gateway's URL and, when user and password are both given,
    the basic-authentication token. *)
Record GwInfo := mkGwInfo {
  gwInfo_gwUrl : option string;
  gwInfo_gwAuth : option string
}.

(** A tenant as [utils.getTenants] returns it; [main] reads its [id]. *)
Record Tenant := mkTenant {
  tenant_id : string
}.

(** An API as [utils.getApis] returns it. [main] reads [id], [tenantId] and
    [basePath]; the rest of the object is the gateway's own description of
    the API, of a type [Native] this file does not look into. *)
Record GwApi (Native : Type) := mkGwApi {
  api_id : string;
  api_tenantId : string;
  api_basePath : string;
  api_native : Native
}.
Arguments mkGwApi {Native} _ _ _ _.
Arguments api_id {Native} _.
Arguments api_tenantId {Native} _.
Arguments api_basePath {Native} _.
Arguments api_native {Native} _.

(** The [endpoint] object handed to [utils.removeEndpointFromSwaggerApi]. *)
Record Endpoint := mkEndpoint {
  gatewayMethod : option string;
  gatewayPath : option string
}.

(** What [utils.removeEndpointFromSwaggerApi] returns: the edited document,
    or an error text ([typeof swaggerOrErrMsg === 'string']). *)
Inductive SwaggerOrErrMsg (Swagger : Type) :=
| EditedSwagger (doc : Swagger)
| ErrMsg (msg : string).
Arguments EditedSwagger {Swagger} _.
Arguments ErrMsg {Swagger} _.

(** ** Promises *)

(** How a promise settles. A rejection reason is represented by the text its
    coercion to a string gives, which is all [main] does with it. *)
Inductive Settled (A : Type) :=
| Resolved (value : A)
| Rejected (reason : string).
Arguments Resolved {A} _.
Arguments Rejected {A} _.

(** A request made to the gateway through [utils.js]. *)
Inductive GwCall (Swagger : Type) :=
| CallGetTenants (gwInfo : GwInfo) (ns : option string) (tenantInstance : string)
| CallGetApis (gwInfo : GwInfo) (tenantId : string) (bp : option string)
| CallDeleteApi (gwInfo : GwInfo) (apiId : string)
| CallAddApi (gwInfo : GwInfo) (tenantId : string) (swagger : Swagger) (apiId : string).
Arguments CallGetTenants {Swagger} _ _ _.
Arguments CallGetApis {Swagger} _ _ _.
Arguments CallDeleteApi {Swagger} _ _.
Arguments CallAddApi {Swagger} _ _ _ _.

Definition is_getApis {Swagger} (c : GwCall Swagger) : bool :=
  match c with CallGetApis _ _ _ => true | _ => false end.
Definition is_deleteApi {Swagger} (c : GwCall Swagger) : bool :=
  match c with CallDeleteApi _ _ => true | _ => false end.
Definition is_addApi {Swagger} (c : GwCall Swagger) : bool :=
  match c with CallAddApi _ _ _ _ => true | _ => false end.

(** The gateway behind the four network functions of [utils.js]: it has a
    state of its own, and every request settles one way or the other and
    leaves the gateway in a new state. *)
Record GatewayClient (Native Swagger : Type) := mkGatewayClient {
  gw_state : Type;
  gw_getTenants :
    GwInfo -> option string -> string -> gw_state -> Settled (list Tenant) * gw_state;
  gw_getApis :
    GwInfo -> string -> option string -> gw_state -> Settled (list (GwApi Native)) * gw_state;
  gw_deleteApiFromGateway :
    GwInfo -> string -> gw_state -> Settled unit * gw_state;
  gw_addApiToGateway :
    GwInfo -> string -> Swagger -> string -> gw_state -> Settled unit * gw_state
}.
Arguments gw_state {Native Swagger} _.
Arguments gw_getTenants {Native Swagger} _ _ _ _ _.
Arguments gw_getApis {Native Swagger} _ _ _ _ _.
Arguments gw_deleteApiFromGateway {Native Swagger} _ _ _ _.
Arguments gw_addApiToGateway {Native Swagger} _ _ _ _ _ _.

(** The functions [main] uses that do no network request: the base64
    encoding of [Buffer], and the two document functions of [utils.js]. *)
Record Env (Native Swagger : Type) := mkEnv {
  base64_of_ascii : string -> string;
  generateSwaggerApiFromGwApi : GwApi Native -> Swagger;
  removeEndpointFromSwaggerApi : Swagger -> Endpoint -> SwaggerOrErrMsg Swagger
}.
Arguments base64_of_ascii {Native Swagger} _ _.
Arguments generateSwaggerApiFromGwApi {Native Swagger} _ _.
Arguments removeEndpointFromSwaggerApi {Native Swagger} _ _ _.

Section Workflow.

Context {Native Swagger : Type}.
Variable E : Env Native Swagger.
Variable G : GatewayClient Native Swagger.

(** The gateway and the requests made to it so far, oldest first. *)
Record World := mkWorld {
  gateway : gw_state G;
  calls : list (GwCall Swagger)
}.

(** A computation that ends in a settled promise. *)
Definition Async (A : Type) : Type := World -> Settled A * World.

Definition Promise_resolve {A} (a : A) : Async A := fun w => (Resolved a, w).
Definition Promise_reject {A} (reason : string) : Async A := fun w => (Rejected reason, w).

(** [p.then(f)]: [f] runs on the value [p] resolves to; a rejection skips it. *)
Definition then_ {A B} (p : Async A) (f : A -> Async B) : Async B :=
  fun w =>
    match p w with
    | (Resolved a, w') => f a w'
    | (Rejected reason, w') => (Rejected reason, w')
    end.

(** [p.catch(h)]: [h] runs on the reason [p] is rejected with. *)
Definition catch_ {A} (p : Async A) (h : string -> Async A) : Async A :=
  fun w =>
    match p w with
    | (Resolved a, w') => (Resolved a, w')
    | (Rejected reason, w') => h reason w'
    end.

(** One request: the gateway answers and the request is recorded. *)
Definition request {A} (c : GwCall Swagger)
    (answer : gw_state G -> Settled A * gw_state G) : Async A :=
  fun w =>
    let (r, g) := answer (gateway w) in
    (r, mkWorld g (calls w ++ [c])).

Definition getTenants (gwInfo : GwInfo) (ns : option string) (inst : string)
    : Async (list Tenant) :=
  request (CallGetTenants gwInfo ns inst) (gw_getTenants G gwInfo ns inst).

Definition getApis (gwInfo : GwInfo) (tenantId : string) (bp : option string)
    : Async (list (GwApi Native)) :=
  request (CallGetApis gwInfo tenantId bp) (gw_getApis G gwInfo tenantId bp).

Definition deleteApiFromGateway (gwInfo : GwInfo) (apiId : string) : Async unit :=
  request (CallDeleteApi gwInfo apiId) (gw_deleteApiFromGateway G gwInfo apiId).

Definition addApiToGateway (gwInfo : GwInfo) (tenantId : string)
    (swagger : Swagger) (apiId : string) : Async unit :=
  request (CallAddApi gwInfo tenantId swagger apiId)
          (gw_addApiToGateway G gwInfo tenantId swagger apiId).

Notation "p 'THEN' f" := (then_ p f) (at level 61, left associativity).
Notation "p 'CATCH' h" := (catch_ p h) (at level 61, left associativity).

(** [var gwInfo = {gwUrl: message.gwUrl}], with [gwAuth] when user and
    password are both given. *)
Definition gwInfo_of (message : Message) : GwInfo :=
  if Js.truthy (gwUser message) && Js.truthy (gwPwd message) then
    mkGwInfo (gwUrl message)
             (Some (base64_of_ascii E
                      (Js.to_string (gwUser message) +:+ ":" +:+ Js.to_string (gwPwd message))))
  else
    mkGwInfo (gwUrl message) None.

(** [message.__ow_meta_namespace || message.namespace] *)
Definition namespace_of (message : Message) : option string :=
  Js.or (__ow_meta_namespace message) (namespace message).

(** [message.tenantInstance || 'openwhisk'] *)
Definition tenantInstance_of (message : Message) : string :=
  Js.or_default (tenantInstance message) "openwhisk".

(** The body of [main] after the validation, for a message that passed
    [validateArgs]: the set-up of [gwInfo], [message.namespace],
    [tenantInstance] and [deleteEntireApi], and the promise chain. *)
Definition chain (message : Message) : Async unit :=
  let gwInfo := gwInfo_of message in
  let message := set_namespace (namespace_of message) message in
  let tenantInstance := tenantInstance_of message in
  let deleteEntireApi := negb (Js.truthy (relpath message)) in
  getTenants gwInfo (namespace message) tenantInstance
  THEN (fun tenants =>
    match tenants with
    | [] => (* tenants.length === 0 *)
      Promise_reject ("No Tenant found for namespace " +:+ Js.to_string (namespace message))
    | tenant0 :: [] =>
      Promise_resolve (tenant_id tenant0)
    | _ :: _ :: _ => (* tenants.length > 1 *)
      Promise_reject ("Internal error. Multiple API Gateway tenants found for namespace "
                      +:+ Js.to_string (namespace message)
                      +:+ " and tenant instance " +:+ tenantInstance)
    end)
  THEN (fun tenantId =>
    getApis gwInfo tenantId (basepath message))
  THEN (fun apis =>
    match apis with
    | [] => (* apis.length === 0 *)
      Promise_reject ("API " +:+ Js.to_string (basepath message) +:+ " does not exist.")
    | api0 :: more =>
      (* when apis.length > 1 a rejected promise is created, but it is not
         returned: the callback goes on to its last statement *)
      let _not_returned : option (Async (GwApi Native)) :=
        match more with
        | [] => None
        | _ :: _ =>
          Some (Promise_reject
                  ("Internal error. Multiple APIs found for namespace "
                   +:+ Js.to_string (namespace message)
                   +:+ " with basepath " +:+ Js.to_string (basepath message)))
        end in
      Promise_resolve api0
    end)
  THEN (fun gwApi =>
    if deleteEntireApi then
      deleteApiFromGateway gwInfo (api_id gwApi)
    else
      let swaggerApi := generateSwaggerApiFromGwApi E gwApi in
      let endpoint := mkEndpoint (operation message) (relpath message) in
      match removeEndpointFromSwaggerApi E swaggerApi endpoint with
      | ErrMsg msg => Promise_reject msg
      | EditedSwagger doc =>
        addApiToGateway gwInfo (api_tenantId gwApi) doc (api_id gwApi)
      end)
  THEN (fun _ => Promise_resolve tt)
  CATCH (fun reason => Promise_reject ("API deletion failure: " +:+ reason)).

(** [main(message)] *)
Definition main (message : option Message) : Async unit :=
  let '(badArgMsg, message) := validateArgs message in
  if Js.truthy_string badArgMsg then
    Promise_reject badArgMsg
  else
    match message with
    | Some message => chain message
    | None =>
      (* not reached: [validateArgs] returns a non-empty text when there
         is no message (see [validateArgs_no_message]) *)
      Promise_reject badArgMsg
    end.

End Workflow.

Arguments World {Native Swagger} G.
Arguments mkWorld {Native Swagger G} _ _.
Arguments gateway {Native Swagger G} _.
Arguments calls {Native Swagger G} _.

(** ** The endpoint editor

    [utils.js], which holds [removeEndpointFromSwaggerApi], is not among the
    sources; the document and its editing are taken from the specification
    (its sections 3 and 4.5). *)

Module EndpointEditor.

(** Modelled from the spec: the endpoint document of [utils.js] (missing
    from the sources), "a structured description of one API's paths, where
    each path maps to a set of operations (HTTP methods), each operation
    carrying gateway-routing metadata". [doc_info] is everything in the
    document besides its paths. *)
Record EndpointDocument (Info OpMeta : Type) := mkEndpointDocument {
  doc_info : Info;
  paths : gmap string (gmap string OpMeta)
}.
Arguments mkEndpointDocument {Info OpMeta} _ _.
Arguments doc_info {Info OpMeta} _.
Arguments paths {Info OpMeta} _.

Section Editor.

Context {Info OpMeta : Type}.

(** The texts of the two failures, which the specification names
    ([PathNotFound], [OperationNotFound]) without spelling them out. *)
Variable PathNotFound : string -> string.
Variable OperationNotFound : string -> string -> string.

(** Modelled from the spec: [removeEndpointFromSwaggerApi] of [utils.js]
    (missing from the sources). Locate the path entry of the selector's
    relative path, not found -> [PathNotFound]; if an operation was
    specified, locate it under the path, not found ->
    [OperationNotFound], remove only that operation and, if the path has
    no operation left, the path entry too; if no operation was
    specified, remove the entire path entry. An operation is specified
    when the field is truthy, as in [validateArgs]. *)
Definition removeEndpoint (doc : EndpointDocument Info OpMeta) (endpoint : Endpoint)
    : SwaggerOrErrMsg (EndpointDocument Info OpMeta) :=
  let relpath := Js.to_string (gatewayPath endpoint) in
  match paths doc !! relpath with
  | None => ErrMsg (PathNotFound relpath)
  | Some ops =>
    if Js.truthy (gatewayMethod endpoint) then
      let op := Js.to_string (gatewayMethod endpoint) in
      match ops !! op with
      | None => ErrMsg (OperationNotFound relpath op)
      | Some _ =>
        let remaining := delete op ops in
        if (size remaining =? 0)%nat then
          EditedSwagger (mkEndpointDocument (doc_info doc) (delete relpath (paths doc)))
        else
          EditedSwagger (mkEndpointDocument (doc_info doc) (<[relpath := remaining]> (paths doc)))
      end
    else
      EditedSwagger (mkEndpointDocument (doc_info doc) (delete relpath (paths doc)))
  end.

(** The metadata of operation [op] under [relpath], if the document has it. *)
Definition operation_at (doc : EndpointDocument Info OpMeta) (relpath op : string)
    : option OpMeta :=
  match paths doc !! relpath with
  | Some ops => ops !! op
  | None => None
  end.

(** The environment of [main] with this editor in the place of
    [utils.removeEndpointFromSwaggerApi]. *)
Definition env {Native : Type} (base64 : string -> string)
    (generate : GwApi Native -> EndpointDocument Info OpMeta)
    : Env Native (EndpointDocument Info OpMeta) :=
  mkEnv Native (EndpointDocument Info OpMeta) base64 generate removeEndpoint.

End Editor.

End EndpointEditor.

(** ** A gateway kept in memory

    A small gateway used to run the workflow on concrete inputs: the
    namespace [guest] has one tenant, [twins] has two, the lookup fails for
    [down] and any other namespace has none; the state is the list of the
    stored APIs, which [deleteApi] and [addApi] update. *)

Module Sample.

Import EndpointEditor.

(** A document whose operations carry the URL of their action. *)
Definition Doc : Type := EndpointDocument unit string.

Definition PathNotFound (relpath : string) : string :=
  "path " +:+ relpath +:+ " does not exist in the API".
Definition OperationNotFound (relpath op : string) : string :=
  "path " +:+ relpath +:+ " with operation " +:+ op +:+ " does not exist in the API".

Definition E : Env Doc Doc :=
  env PathNotFound OperationNotFound (fun s => "b64(" +:+ s +:+ ")") api_native.

Definition store_getTenants (gwInfo : GwInfo) (ns : option string) (inst : string)
    (g : list (GwApi Doc)) : Settled (list Tenant) * list (GwApi Doc) :=
  match ns with
  | Some "guest" => (Resolved [mkTenant "tenant-guest"], g)
  | Some "twins" => (Resolved [mkTenant "tenant-a"; mkTenant "tenant-b"], g)
  | Some "down" => (Rejected "Error: connect ECONNREFUSED", g)
  | _ => (Resolved [], g)
  end.

Definition store_getApis (gwInfo : GwInfo) (tenantId : string) (bp : option string)
    (g : list (GwApi Doc)) : Settled (list (GwApi Doc)) * list (GwApi Doc) :=
  (Resolved (filter (fun a => api_tenantId a = tenantId /\ Some (api_basePath a) = bp) g), g).

Definition store_deleteApi (gwInfo : GwInfo) (apiId : string)
    (g : list (GwApi Doc)) : Settled unit * list (GwApi Doc) :=
  (Resolved tt, filter (fun a => api_id a <> apiId) g).

Definition store_addApi (gwInfo : GwInfo) (tenantId : string) (doc : Doc) (apiId : string)
    (g : list (GwApi Doc)) : Settled unit * list (GwApi Doc) :=
  (Resolved tt,
   (fun a => if decide (api_id a = apiId)
             then mkGwApi (api_id a) tenantId (api_basePath a) doc else a) <$> g).

Definition G : GatewayClient Doc Doc :=
  mkGatewayClient Doc Doc (list (GwApi Doc))
                  store_getTenants store_getApis store_deleteApi store_addApi.

(** [/a] with [get] and [post], [/b] with [get] only. *)
Definition books_doc : Doc :=
  mkEndpointDocument tt
    (<["/a" := <["get" := "action/list"]> (<["post" := "action/add"]> ∅)]>
       (<["/b" := <["get" := "action/info"]> ∅]> ∅)).

Definition books : GwApi Doc := mkGwApi "api-1" "tenant-guest" "/books" books_doc.
Definition books_again : GwApi Doc := mkGwApi "api-2" "tenant-guest" "/books" books_doc.

Definition world (apis : list (GwApi Doc)) : World G := mkWorld (G := G) apis [].

(** A request of namespace [ns] on [/books], for [relpath] and [operation]. *)
Definition request_for (override ns relpath operation : option string) : Message :=
  mkMessage (Some "http://gw.example") None None ns override None
            (Some "/books") relpath operation.

Definition info : GwInfo := mkGwInfo (Some "http://gw.example") None.

End Sample.

(** ** Vocabulary of the properties *)

(** The arguments pass every test of [validateArgs]. *)
Definition valid (m : Message) : bool :=
  Js.truthy (gwUrl m) && Js.truthy (__ow_meta_namespace m) && Js.truthy (basepath m)
  && negb (negb (Js.truthy (relpath m)) && Js.truthy (operation m)).

(** The message with its operation in lower case. *)
Definition normalized (m : Message) : Message :=
  set_operation (Js.toLowerCase <$> operation m) m.

(** The text [validateArgs] has for a shortcoming of the message [m]. *)
Inductive InputError (m : Message) : string -> Prop :=
| gwUrl_missing :
    Js.truthy (gwUrl m) = false -> InputError m "gwUrl is required."
| namespace_missing :
    Js.truthy (__ow_meta_namespace m) = false ->
    InputError m "__ow_meta_namespace is required."
| basepath_missing :
    Js.truthy (basepath m) = false -> InputError m "basepath is required."
| operation_without_relpath :
    Js.truthy (operation m) = true -> Js.truthy (relpath m) = false ->
    InputError m "When specifying an operation, the relpath is required.".

(** What the top-level [catch] makes of a rejection reason. *)
Definition deletion_failure (reason : string) : string :=
  "API deletion failure: " +:+ reason.

(** How the last [then] and the [catch] pass on the outcome of the request
    that deletes or replaces the API. *)
Definition final_outcome (r : Settled unit) : Settled unit :=
  match r with
  | Resolved _ => Resolved tt
  | Rejected reason => Rejected (deletion_failure reason)
  end.

(** The ways through the promise chain of [main], each with the result it
    ends in: the settled promise, the state the gateway is left in and the
    requests made, after those of the world [w] the chain starts in. *)
Section Ways.

Context {Native Swagger : Type}.
Variable E : Env Native Swagger.
Variable G : GatewayClient Native Swagger.
Variable m : Message.
Variable w : World G.

Local Abbreviation gwInfo := (gwInfo_of E m).
Local Abbreviation getTenants_call :=
  (CallGetTenants gwInfo (namespace_of m) (tenantInstance_of m)).
Local Abbreviation getApis_call tenantId :=
  (CallGetApis gwInfo tenantId (basepath m)).
Local Abbreviation tenants_are answer :=
  (gw_getTenants G gwInfo (namespace_of m) (tenantInstance_of m) (gateway w) = answer).
Local Abbreviation apis_are t g1 answer :=
  (gw_getApis G gwInfo (tenant_id t) (basepath m) g1 = answer).
Local Abbreviation edit_is api0 answer :=
  (removeEndpointFromSwaggerApi E (generateSwaggerApiFromGwApi E api0)
     (mkEndpoint (operation m) (relpath m)) = answer).

Inductive Way : Settled unit * World G -> Prop :=
| getTenants_fails reason g1 :
    tenants_are (Rejected reason, g1) ->
    Way (Rejected (deletion_failure reason), mkWorld g1 (calls w ++ [getTenants_call]))
| no_tenant g1 :
    tenants_are (Resolved [], g1) ->
    Way (Rejected (deletion_failure
                     ("No Tenant found for namespace " +:+ Js.to_string (namespace_of m))),
         mkWorld g1 (calls w ++ [getTenants_call]))
| many_tenants t1 t2 ts g1 :
    tenants_are (Resolved (t1 :: t2 :: ts), g1) ->
    Way (Rejected (deletion_failure
                     ("Internal error. Multiple API Gateway tenants found for namespace "
                      +:+ Js.to_string (namespace_of m)
                      +:+ " and tenant instance " +:+ tenantInstance_of m)),
         mkWorld g1 (calls w ++ [getTenants_call]))
| getApis_fails t g1 reason g2 :
    tenants_are (Resolved [t], g1) ->
    apis_are t g1 (Rejected reason, g2) ->
    Way (Rejected (deletion_failure reason),
         mkWorld g2 (calls w ++ [getTenants_call; getApis_call (tenant_id t)]))
| no_api t g1 g2 :
    tenants_are (Resolved [t], g1) ->
    apis_are t g1 (Resolved [], g2) ->
    Way (Rejected (deletion_failure
                     ("API " +:+ Js.to_string (basepath m) +:+ " does not exist.")),
         mkWorld g2 (calls w ++ [getTenants_call; getApis_call (tenant_id t)]))
| entire_api_deleted t g1 api0 more g2 r g3 :
    tenants_are (Resolved [t], g1) ->
    apis_are t g1 (Resolved (api0 :: more), g2) ->
    Js.truthy (relpath m) = false ->
    gw_deleteApiFromGateway G gwInfo (api_id api0) g2 = (r, g3) ->
    Way (final_outcome r,
         mkWorld g3 (calls w ++ [getTenants_call; getApis_call (tenant_id t);
                                  CallDeleteApi gwInfo (api_id api0)]))
| edit_fails t g1 api0 more g2 msg :
    tenants_are (Resolved [t], g1) ->
    apis_are t g1 (Resolved (api0 :: more), g2) ->
    Js.truthy (relpath m) = true ->
    edit_is api0 (ErrMsg msg) ->
    Way (Rejected (deletion_failure msg),
         mkWorld g2 (calls w ++ [getTenants_call; getApis_call (tenant_id t)]))
| api_replaced t g1 api0 more g2 doc r g3 :
    tenants_are (Resolved [t], g1) ->
    apis_are t g1 (Resolved (api0 :: more), g2) ->
    Js.truthy (relpath m) = true ->
    edit_is api0 (EditedSwagger doc) ->
    gw_addApiToGateway G gwInfo (api_tenantId api0) doc (api_id api0) g2 = (r, g3) ->
    Way (final_outcome r,
         mkWorld g3 (calls w ++ [getTenants_call; getApis_call (tenant_id t);
                                  CallAddApi gwInfo (api_tenantId api0) doc (api_id api0)])).

End Ways.

(** [message.tenantInstance = v] (used to state properties, not by the source) *)
Definition set_tenantInstance (v : option string) (m : Message) : Message :=
  mkMessage (gwUrl m) (gwUser m) (gwPwd m) (namespace m) (__ow_meta_namespace m)
            v (basepath m) (relpath m) (operation m).

(** [message.gwUser = user; message.gwPwd = pwd] (used to state properties,
    not by the source) *)
Definition set_credentials (user pwd : option string) (m : Message) : Message :=
  mkMessage (gwUrl m) user pwd (namespace m) (__ow_meta_namespace m)
            (tenantInstance m) (basepath m) (relpath m) (operation m).

Definition is_getTenants {Swagger} (c : GwCall Swagger) : bool :=
  match c with CallGetTenants _ _ _ => true | _ => false end.

(** The [gwInfo] a request is made with. *)
Definition call_gwInfo {Swagger} (c : GwCall Swagger) : GwInfo :=
  match c with
  | CallGetTenants gwInfo _ _ => gwInfo
  | CallGetApis gwInfo _ _ => gwInfo
  | CallDeleteApi gwInfo _ => gwInfo
  | CallAddApi gwInfo _ _ _ => gwInfo
  end.

(** The order of the requests of one run: the tenant lookup, then the API
    lookup, then one request that deletes or replaces the API; a run may
    stop after any of them. *)
Definition follows_protocol {Swagger} (requests : list (GwCall Swagger)) : bool :=
  match requests with
  | [] => true
  | [c1] => is_getTenants c1
  | [c1; c2] => is_getTenants c1 && is_getApis c2
  | [c1; c2; c3] =>
    is_getTenants c1 && is_getApis c2 && (is_deleteApi c3 || is_addApi c3)
  | _ => false
  end.

(** Unfolding of the promise chain, and rewriting with a gateway's answer. *)
Ltac run_chain :=
  unfold chain, then_, catch_, getTenants, getApis, deleteApiFromGateway,
    addApiToGateway, request, Promise_resolve, Promise_reject, deletion_failure;
  cbn [gateway calls set_namespace namespace basepath relpath operation];
  repeat match goal with
         | |- context [tenantInstance_of (set_namespace ?v ?m)] =>
           change (tenantInstance_of (set_namespace v m)) with (tenantInstance_of m)
         end.

Ltac answer H := rewrite H; cbn [gateway calls].

(** ** Lower case *)

Lemma lower_ascii_idem (c : ascii) : Js.lower_ascii (Js.lower_ascii c) = Js.lower_ascii c.
Proof. destruct c as [[] [] [] [] [] [] [] []]; reflexivity. Qed.

Lemma toLowerCase_idem (s : string) : Js.toLowerCase (Js.toLowerCase s) = Js.toLowerCase s.
Proof.
  induction s as [|c s IH]; simpl; [reflexivity|].
  rewrite lower_ascii_idem, IH. reflexivity.
Qed.

Lemma toLowerCase_eqb_empty (s : string) :
  String.eqb (Js.toLowerCase s) "" = String.eqb s "".
Proof. destruct s; reflexivity. Qed.

Lemma truthy_toLowerCase (v : option string) :
  Js.truthy (Js.toLowerCase <$> v) = Js.truthy v.
Proof. destruct v as [s|]; simpl; [|reflexivity]. rewrite toLowerCase_eqb_empty. reflexivity. Qed.

Lemma toLowerCase_fmap_idem (v : option string) :
  Js.toLowerCase <$> (Js.toLowerCase <$> v) = Js.toLowerCase <$> v.
Proof. destruct v as [s|]; simpl; [|reflexivity]. rewrite toLowerCase_idem. reflexivity. Qed.

(** A falsy operation is its own lower case. *)
Lemma falsy_toLowerCase (v : option string) :
  Js.truthy v = false -> Js.toLowerCase <$> v = v.
Proof.
  destruct v as [s|]; simpl; [|reflexivity].
  destruct s; simpl; [reflexivity|discriminate].
Qed.

(** ** validateArgs *)

Lemma validateArgs_no_message :
  validateArgs None = ("Internal error.  A message parameter was not supplied.", None).
Proof. reflexivity. Qed.

Lemma set_operation_same (m : Message) : set_operation (operation m) m = m.
Proof. destruct m; reflexivity. Qed.

Lemma validateArgs_valid (m : Message) :
  valid m = true -> validateArgs (Some m) = ("", Some (normalized m)).
Proof.
  unfold valid, validateArgs, normalized. intros Hv.
  destruct (Js.truthy (gwUrl m)); [|discriminate].
  destruct (Js.truthy (__ow_meta_namespace m)); [|discriminate].
  destruct (Js.truthy (basepath m)); [|discriminate].
  destruct (Js.truthy (relpath m)), (Js.truthy (operation m)) eqn:Hop;
    simpl in *; try discriminate; try reflexivity;
    rewrite (falsy_toLowerCase _ Hop), set_operation_same; reflexivity.
Qed.

(** A message that is not [valid] gets the text of the first test it fails,
    and is left as it was. *)
Lemma validateArgs_invalid (m : Message) :
  valid m = false ->
  exists e, InputError m e /\ Js.truthy_string e = true /\ validateArgs (Some m) = (e, Some m).
Proof.
  unfold valid, validateArgs. intros Hv.
  destruct (Js.truthy (gwUrl m)) eqn:H1; simpl.
  2:{ eexists; split; [apply gwUrl_missing; assumption|]. split; reflexivity. }
  destruct (Js.truthy (__ow_meta_namespace m)) eqn:H2; simpl.
  2:{ eexists; split; [apply namespace_missing; assumption|]. split; reflexivity. }
  destruct (Js.truthy (basepath m)) eqn:H3; simpl.
  2:{ eexists; split; [apply basepath_missing; assumption|]. split; reflexivity. }
  destruct (Js.truthy (relpath m)) eqn:H4, (Js.truthy (operation m)) eqn:H5;
    simpl in *; try discriminate.
  eexists; split; [apply operation_without_relpath; assumption|]. split; reflexivity.
Qed.

Lemma valid_false_iff (m : Message) :
  valid m = false <->
  Js.truthy (gwUrl m) = false \/ Js.truthy (__ow_meta_namespace m) = false \/
  Js.truthy (basepath m) = false \/
  (Js.truthy (operation m) = true /\ Js.truthy (relpath m) = false).
Proof.
  unfold valid.
  destruct (Js.truthy (gwUrl m)), (Js.truthy (__ow_meta_namespace m)),
    (Js.truthy (basepath m)), (Js.truthy (relpath m)), (Js.truthy (operation m));
    simpl; intuition congruence.
Qed.

(** The fields the chain reads are those of the message as it was given,
    but for the operation. *)
Lemma valid_normalized (m : Message) : valid (normalized m) = valid m.
Proof. unfold valid, normalized; simpl. rewrite truthy_toLowerCase. reflexivity. Qed.

Lemma normalized_idem (m : Message) : normalized (normalized m) = normalized m.
Proof. unfold normalized, set_operation; simpl. rewrite toLowerCase_fmap_idem. reflexivity. Qed.

Section Properties.

Context {Native Swagger : Type}.
Variable E : Env Native Swagger.
Variable G : GatewayClient Native Swagger.

(** ** main: the validation step *)

Lemma main_valid (m : Message) (w : World G) :
  valid m = true -> main E G (Some m) w = chain E G (normalized m) w.
Proof. intros Hv. unfold main. rewrite (validateArgs_valid m Hv). reflexivity. Qed.

Lemma main_invalid (m : Message) (w : World G) :
  valid m = false ->
  exists e, InputError m e /\ main E G (Some m) w = (Rejected e, w).
Proof.
  intros Hv. destruct (validateArgs_invalid m Hv) as (e & He & Ht & Hval).
  exists e. split; [assumption|].
  unfold main. rewrite Hval, Ht. reflexivity.
Qed.

Lemma main_no_message (w : World G) :
  main E G None w =
  (Rejected "Internal error.  A message parameter was not supplied.", w).
Proof. reflexivity. Qed.

(** C3: a message without [gwUrl], without namespace (the
    [__ow_meta_namespace] field, whatever [namespace] holds) or without
    [basepath], and a message with an [operation] but no [relpath], is
    rejected with the text [validateArgs] has for one of its shortcomings;
    the gateway is left as it was and no request is made to it. *)
Theorem invalid_input_rejected_without_gateway_call (m : Message) (w : World G) :
  Js.truthy (gwUrl m) = false \/ Js.truthy (__ow_meta_namespace m) = false \/
  Js.truthy (basepath m) = false \/
  (Js.truthy (operation m) = true /\ Js.truthy (relpath m) = false) ->
  exists e, InputError m e /\ main E G (Some m) w = (Rejected e, w).
Proof. intros H. apply main_invalid, valid_false_iff, H. Qed.

(** C9: the workflow run on a message and on the same message with its
    operation in lower case give the same result: the same settled
    promise, the same requests (so the same document given to
    [addApiToGateway]) and the same gateway. *)
Theorem main_operation_case_insensitive (m : Message) (w : World G) :
  main E G (Some (set_operation (Js.toLowerCase <$> operation m) m)) w =
  main E G (Some m) w.
Proof.
  fold (normalized m).
  destruct (valid m) eqn:Hv.
  - rewrite main_valid by (rewrite valid_normalized; exact Hv).
    rewrite main_valid by exact Hv.
    rewrite normalized_idem. reflexivity.
  - unfold main.
    destruct (validateArgs_invalid m Hv) as (e & _ & Ht & Hval).
    assert (Hv' : valid (normalized m) = false) by (rewrite valid_normalized; exact Hv).
    destruct (validateArgs_invalid _ Hv') as (e' & _ & Ht' & Hval').
    rewrite Hval, Hval', Ht, Ht'.
    assert (e' = e) as ->; [|reflexivity].
    revert Hval Hval'. unfold validateArgs, normalized; simpl.
    rewrite truthy_toLowerCase.
    destruct (Js.truthy (gwUrl m)), (Js.truthy (__ow_meta_namespace m)),
      (Js.truthy (basepath m)), (Js.truthy (relpath m)), (Js.truthy (operation m));
      simpl; congruence.
Qed.

(** ** main: the promise chain, one lemma per way through it *)

Section Chain.

Variable m : Message.
Variable w : World G.

Local Abbreviation gwInfo := (gwInfo_of E m).
Local Abbreviation getTenants_call :=
  (CallGetTenants gwInfo (namespace_of m) (tenantInstance_of m)).
Local Abbreviation getApis_call tenantId :=
  (CallGetApis gwInfo tenantId (basepath m)).

Lemma chain_getTenants_rejected reason g1 :
  gw_getTenants G gwInfo (namespace_of m) (tenantInstance_of m) (gateway w)
    = (Rejected reason, g1) ->
  chain E G m w =
  (Rejected (deletion_failure reason), mkWorld g1 (calls w ++ [getTenants_call])).
Proof. intros H1. run_chain. answer H1. reflexivity. Qed.

Lemma chain_no_tenant g1 :
  gw_getTenants G gwInfo (namespace_of m) (tenantInstance_of m) (gateway w)
    = (Resolved [], g1) ->
  chain E G m w =
  (Rejected (deletion_failure
               ("No Tenant found for namespace " +:+ Js.to_string (namespace_of m))),
   mkWorld g1 (calls w ++ [getTenants_call])).
Proof. intros H1. run_chain. answer H1. reflexivity. Qed.

Lemma chain_many_tenants t1 t2 ts g1 :
  gw_getTenants G gwInfo (namespace_of m) (tenantInstance_of m) (gateway w)
    = (Resolved (t1 :: t2 :: ts), g1) ->
  chain E G m w =
  (Rejected (deletion_failure
               ("Internal error. Multiple API Gateway tenants found for namespace "
                +:+ Js.to_string (namespace_of m)
                +:+ " and tenant instance " +:+ tenantInstance_of m)),
   mkWorld g1 (calls w ++ [getTenants_call])).
Proof. intros H1. run_chain. answer H1. reflexivity. Qed.

Section OneTenant.

Variable t : Tenant.
Variable g1 : gw_state G.
Hypothesis one_tenant :
  gw_getTenants G gwInfo (namespace_of m) (tenantInstance_of m) (gateway w)
    = (Resolved [t], g1).

Lemma chain_getApis_rejected reason g2 :
  gw_getApis G gwInfo (tenant_id t) (basepath m) g1 = (Rejected reason, g2) ->
  chain E G m w =
  (Rejected (deletion_failure reason),
   mkWorld g2 (calls w ++ [getTenants_call; getApis_call (tenant_id t)])).
Proof.
  intros H2. run_chain. answer one_tenant. answer H2.
  rewrite <- app_assoc. reflexivity.
Qed.

Lemma chain_no_api g2 :
  gw_getApis G gwInfo (tenant_id t) (basepath m) g1 = (Resolved [], g2) ->
  chain E G m w =
  (Rejected (deletion_failure
               ("API " +:+ Js.to_string (basepath m) +:+ " does not exist.")),
   mkWorld g2 (calls w ++ [getTenants_call; getApis_call (tenant_id t)])).
Proof.
  intros H2. run_chain. answer one_tenant. answer H2.
  rewrite <- app_assoc. reflexivity.
Qed.

Section FirstApi.

(** The gateway answers with at least one API; the chain goes on
    with the first, whether or not there are [more]. *)
Variable api0 : GwApi Native.
Variable more : list (GwApi Native).
Variable g2 : gw_state G.
Hypothesis some_api :
  gw_getApis G gwInfo (tenant_id t) (basepath m) g1 = (Resolved (api0 :: more), g2).

Lemma chain_delete_entire_api r g3 :
  Js.truthy (relpath m) = false ->
  gw_deleteApiFromGateway G gwInfo (api_id api0) g2 = (r, g3) ->
  chain E G m w =
  (final_outcome r,
   mkWorld g3 (calls w ++ [getTenants_call; getApis_call (tenant_id t);
                            CallDeleteApi gwInfo (api_id api0)])).
Proof.
  intros Hrel H3. run_chain. answer one_tenant. answer some_api.
  rewrite Hrel. cbn [negb gateway calls]. answer H3.
  rewrite <- !app_assoc. destruct r; reflexivity.
Qed.

Lemma chain_edit_error msg :
  Js.truthy (relpath m) = true ->
  removeEndpointFromSwaggerApi E (generateSwaggerApiFromGwApi E api0)
    (mkEndpoint (operation m) (relpath m)) = ErrMsg msg ->
  chain E G m w =
  (Rejected (deletion_failure msg),
   mkWorld g2 (calls w ++ [getTenants_call; getApis_call (tenant_id t)])).
Proof.
  intros Hrel Hedit. run_chain. answer one_tenant. answer some_api.
  rewrite Hrel. cbn [negb gateway calls]. rewrite Hedit.
  rewrite <- !app_assoc. reflexivity.
Qed.

Lemma chain_replace_api doc r g3 :
  Js.truthy (relpath m) = true ->
  removeEndpointFromSwaggerApi E (generateSwaggerApiFromGwApi E api0)
    (mkEndpoint (operation m) (relpath m)) = EditedSwagger doc ->
  gw_addApiToGateway G gwInfo (api_tenantId api0) doc (api_id api0) g2 = (r, g3) ->
  chain E G m w =
  (final_outcome r,
   mkWorld g3 (calls w ++ [getTenants_call; getApis_call (tenant_id t);
                            CallAddApi gwInfo (api_tenantId api0) doc (api_id api0)])).
Proof.
  intros Hrel Hedit H3. run_chain. answer one_tenant. answer some_api.
  rewrite Hrel. cbn [negb gateway calls]. rewrite Hedit. cbn [gateway calls]. answer H3.
  rewrite <- !app_assoc. destruct r; reflexivity.
Qed.

End FirstApi.
End OneTenant.
End Chain.

(** Every run of the chain goes one of the ways of [Way]. *)
Lemma chain_way (m : Message) (w : World G) : Way E G m w (chain E G m w).
Proof.
  destruct (gw_getTenants G (gwInfo_of E m) (namespace_of m) (tenantInstance_of m)
              (gateway w)) as [[tenants|r1] g1] eqn:H1.
  2:{ rewrite (chain_getTenants_rejected m w r1 g1 H1). eapply getTenants_fails; eassumption. }
  destruct tenants as [|t [|t2 ts]].
  { rewrite (chain_no_tenant m w g1 H1). eapply no_tenant; eassumption. }
  2:{ rewrite (chain_many_tenants m w t t2 ts g1 H1). eapply many_tenants; eassumption. }
  destruct (gw_getApis G (gwInfo_of E m) (tenant_id t) (basepath m) g1)
    as [[apis|r2] g2] eqn:H2.
  2:{ rewrite (chain_getApis_rejected m w t g1 H1 r2 g2 H2).
      eapply getApis_fails; eassumption. }
  destruct apis as [|api0 more].
  { rewrite (chain_no_api m w t g1 H1 g2 H2). eapply no_api; eassumption. }
  destruct (Js.truthy (relpath m)) eqn:Hrel.
  - destruct (removeEndpointFromSwaggerApi E (generateSwaggerApiFromGwApi E api0)
                (mkEndpoint (operation m) (relpath m))) as [doc|msg] eqn:Hedit.
    + destruct (gw_addApiToGateway G (gwInfo_of E m) (api_tenantId api0) doc
                  (api_id api0) g2) as [r g3] eqn:H3.
      rewrite (chain_replace_api m w t g1 H1 api0 more g2 H2 doc r g3 Hrel Hedit H3).
      eapply api_replaced; eassumption.
    + rewrite (chain_edit_error m w t g1 H1 api0 more g2 H2 msg Hrel Hedit).
      eapply edit_fails; eassumption.
  - destruct (gw_deleteApiFromGateway G (gwInfo_of E m) (api_id api0) g2)
      as [r g3] eqn:H3.
    rewrite (chain_delete_entire_api m w t g1 H1 api0 more g2 H2 r g3 Hrel H3).
    eapply entire_api_deleted; eassumption.
Qed.

(** The first request of the chain is the tenant lookup. *)
Lemma chain_starts_with_getTenants (m : Message) (w : World G) :
  exists rest,
    calls (snd (chain E G m w)) =
    calls w ++ CallGetTenants (gwInfo_of E m) (namespace_of m) (tenantInstance_of m) :: rest.
Proof.
  destruct (chain_way m w); cbn [snd calls]; eexists; reflexivity.
Qed.

(** Without a [relpath], no document is sent to the gateway. *)
Lemma chain_without_relpath_no_addApi (m : Message) (w : World G) :
  Js.truthy (relpath m) = false ->
  exists new,
    calls (snd (chain E G m w)) = calls w ++ new /\
    forallb (fun c => negb (is_addApi c)) new = true.
Proof.
  intros Hrel.
  destruct (chain_way m w); cbn [snd calls]; try congruence;
    eexists; (split; [reflexivity|reflexivity]).
Qed.

(** Whatever the chain is rejected with went through the [catch]. *)
Lemma chain_rejection_prefixed (m : Message) (w w' : World G) (reason : string) :
  chain E G m w = (Rejected reason, w') ->
  exists cause, reason = deletion_failure cause.
Proof.
  intros H. destruct (chain_way m w) as [| | | | |? ? ? ? ? r ? | |? ? ? ? ? ? r ?];
    try (injection H as <- _; eexists; reflexivity);
    destruct r; cbn in H; try discriminate;
    injection H as <- _; eexists; reflexivity.
Qed.

(** With the override field there, it is the namespace. *)
Lemma namespace_of_override (m : Message) :
  Js.truthy (__ow_meta_namespace m) = true -> namespace_of m = __ow_meta_namespace m.
Proof. unfold namespace_of, Js.or. intros ->. reflexivity. Qed.

Lemma valid_override (m : Message) :
  valid m = true -> Js.truthy (__ow_meta_namespace m) = true.
Proof.
  unfold valid. destruct (Js.truthy (__ow_meta_namespace m)); [reflexivity|].
  rewrite andb_false_r. discriminate.
Qed.

(** ** Properties of the specification *)

(** C2 (as the code has it): the [__ow_meta_namespace] field is required
    whether or not [namespace] is given: a message with a [gwUrl] but
    without the override field is rejected with [__ow_meta_namespace is
    required.] and no request is made, whatever its [namespace] field holds;
    and for a message that passes validation the value of the override field
    is the namespace of the tenant lookup, whatever [namespace] holds. *)
Theorem namespace_override_is_required (m : Message) (w : World G) :
  (Js.truthy (gwUrl m) = true -> Js.truthy (__ow_meta_namespace m) = false ->
   main E G (Some m) w = (Rejected "__ow_meta_namespace is required.", w))
  /\
  (valid m = true ->
   namespace_of m = __ow_meta_namespace m /\
   exists rest,
     calls (snd (main E G (Some m) w)) =
     calls w ++ CallGetTenants (gwInfo_of E m) (__ow_meta_namespace m)
                               (tenantInstance_of m) :: rest).
Proof.
  split.
  - intros Hurl Hns. unfold main, validateArgs. rewrite Hurl, Hns. reflexivity.
  - intros Hv. pose proof (namespace_of_override m (valid_override m Hv)) as Hns.
    split; [exact Hns|].
    rewrite (main_valid m w Hv).
    destruct (chain_starts_with_getTenants (normalized m) w) as [rest Hrest].
    exists rest. rewrite Hrest, <- Hns. reflexivity.
Qed.

(** C4: for a message that passes validation, when the tenant lookup
    answers with no tenant the workflow fails with [No Tenant found for
    namespace ...]; with more than one tenant it fails with [Internal error.
    Multiple API Gateway tenants found ...]; in both cases the tenant lookup
    is the only request made. With exactly one tenant the next request is
    the API lookup, for that tenant's id. *)
Theorem tenant_resolution (m : Message) (w : World G)
    (tenants : list Tenant) (g1 : gw_state G) :
  valid m = true ->
  gw_getTenants G (gwInfo_of E m) (namespace_of m) (tenantInstance_of m) (gateway w)
    = (Resolved tenants, g1) ->
  match tenants with
  | [] =>
    main E G (Some m) w =
    (Rejected (deletion_failure
                 ("No Tenant found for namespace " +:+ Js.to_string (namespace_of m))),
     mkWorld g1 (calls w ++ [CallGetTenants (gwInfo_of E m) (namespace_of m)
                                            (tenantInstance_of m)]))
  | [t] =>
    exists rest,
      calls (snd (main E G (Some m) w)) =
      calls w ++ CallGetTenants (gwInfo_of E m) (namespace_of m) (tenantInstance_of m)
              :: CallGetApis (gwInfo_of E m) (tenant_id t) (basepath m)
              :: rest
  | _ :: _ :: _ =>
    main E G (Some m) w =
    (Rejected (deletion_failure
                 ("Internal error. Multiple API Gateway tenants found for namespace "
                  +:+ Js.to_string (namespace_of m)
                  +:+ " and tenant instance " +:+ tenantInstance_of m)),
     mkWorld g1 (calls w ++ [CallGetTenants (gwInfo_of E m) (namespace_of m)
                                            (tenantInstance_of m)]))
  end.
Proof.
  intros Hv H1. rewrite (main_valid m w Hv).
  destruct tenants as [|t [|t2 ts]].
  - exact (chain_no_tenant (normalized m) w g1 H1).
  - assert (H1' : gw_getTenants G (gwInfo_of E (normalized m)) (namespace_of (normalized m))
                    (tenantInstance_of (normalized m)) (gateway w) = (Resolved [t], g1))
      by exact H1.
    destruct (chain_way (normalized m) w) as
      [? ? T|? T|? ? ? ? T|t' ? ? ? T|t' ? ? T|t' ? ? ? ? ? ? T|t' ? ? ? ? ? T|t' ? ? ? ? ? ? ? T];
      rewrite H1' in T; try discriminate;
      injection T as <- <-; cbn [snd calls]; eexists; reflexivity.
  - exact (chain_many_tenants (normalized m) w t t2 ts g1 H1).
Qed.

(** C5: for a message that passes validation and has no [relpath], once the
    tenant lookup and the API lookup have each answered with one result the
    workflow makes one more request, [deleteApiFromGateway] for the id of
    that API, and none to [addApiToGateway]; whatever the document functions
    of the environment are, they have no part in the result. If the request
    succeeds so does the workflow. *)
Theorem entire_api_delete (m : Message) (w : World G)
    (t : Tenant) (g1 : gw_state G) (api : GwApi Native) (g2 : gw_state G)
    (r : Settled unit) (g3 : gw_state G) :
  valid m = true ->
  Js.truthy (relpath m) = false ->
  gw_getTenants G (gwInfo_of E m) (namespace_of m) (tenantInstance_of m) (gateway w)
    = (Resolved [t], g1) ->
  gw_getApis G (gwInfo_of E m) (tenant_id t) (basepath m) g1 = (Resolved [api], g2) ->
  gw_deleteApiFromGateway G (gwInfo_of E m) (api_id api) g2 = (r, g3) ->
  main E G (Some m) w =
  (final_outcome r,
   mkWorld g3 (calls w ++ [CallGetTenants (gwInfo_of E m) (namespace_of m)
                                          (tenantInstance_of m);
                            CallGetApis (gwInfo_of E m) (tenant_id t) (basepath m);
                            CallDeleteApi (gwInfo_of E m) (api_id api)]))
  /\ (r = Resolved tt -> fst (main E G (Some m) w) = Resolved tt).
Proof.
  intros Hv Hrel H1 H2 H3.
  assert (Hmain : main E G (Some m) w =
    (final_outcome r,
     mkWorld g3 (calls w ++ [CallGetTenants (gwInfo_of E m) (namespace_of m)
                                            (tenantInstance_of m);
                              CallGetApis (gwInfo_of E m) (tenant_id t) (basepath m);
                              CallDeleteApi (gwInfo_of E m) (api_id api)]))).
  { rewrite (main_valid m w Hv).
    exact (chain_delete_entire_api (normalized m) w t g1 H1 api [] g2 H2 r g3 Hrel H3). }
  split; [exact Hmain|].
  intros ->. rewrite Hmain. reflexivity.
Qed.

(** C10: a message whose [relpath] is the empty string is treated as the
    same message without [relpath]: the two runs give the same result.
    Without an operation the delete is of the entire API: whatever the
    gateway answers no document is sent to it, and with [gwUrl], namespace
    and [basepath] given, once the tenant lookup and the API lookup have
    each answered with one result the third and last request is
    [deleteApiFromGateway] for the id of that API, whose outcome is the
    outcome of the workflow. With an operation, and [gwUrl], namespace and
    [basepath] given, the message is rejected by validation with [When
    specifying an operation, the relpath is required.]. *)
Theorem empty_relpath_as_absent (m : Message) (w : World G) :
  main E G (Some (set_relpath (Some "") m)) w = main E G (Some (set_relpath None m)) w
  /\
  (Js.truthy (operation m) = false ->
   exists new,
     calls (snd (main E G (Some (set_relpath (Some "") m)) w)) = calls w ++ new /\
     forallb (fun c => negb (is_addApi c)) new = true)
  /\
  (Js.truthy (operation m) = false ->
   Js.truthy (gwUrl m) = true -> Js.truthy (__ow_meta_namespace m) = true ->
   Js.truthy (basepath m) = true ->
   forall (t : Tenant) (g1 : gw_state G) (api : GwApi Native) (g2 : gw_state G)
          (r : Settled unit) (g3 : gw_state G),
     gw_getTenants G (gwInfo_of E m) (namespace_of m) (tenantInstance_of m) (gateway w)
       = (Resolved [t], g1) ->
     gw_getApis G (gwInfo_of E m) (tenant_id t) (basepath m) g1 = (Resolved [api], g2) ->
     gw_deleteApiFromGateway G (gwInfo_of E m) (api_id api) g2 = (r, g3) ->
     main E G (Some (set_relpath (Some "") m)) w =
     (final_outcome r,
      mkWorld g3 (calls w ++ [CallGetTenants (gwInfo_of E m) (namespace_of m)
                                             (tenantInstance_of m);
                               CallGetApis (gwInfo_of E m) (tenant_id t) (basepath m);
                               CallDeleteApi (gwInfo_of E m) (api_id api)])))
  /\
  (Js.truthy (operation m) = true ->
   Js.truthy (gwUrl m) = true -> Js.truthy (__ow_meta_namespace m) = true ->
   Js.truthy (basepath m) = true ->
   main E G (Some (set_relpath (Some "") m)) w =
   (Rejected "When specifying an operation, the relpath is required.", w)).
Proof.
  split; [|split; [|split]].
  - unfold main, validateArgs. cbn [set_relpath gwUrl __ow_meta_namespace basepath relpath operation].
    destruct (Js.truthy (gwUrl m)); [|reflexivity].
    destruct (Js.truthy (__ow_meta_namespace m)); [|reflexivity].
    destruct (Js.truthy (basepath m)); [|reflexivity].
    destruct (Js.truthy (operation m)); reflexivity.
  - intros Hop. set (m' := set_relpath (Some "") m).
    destruct (valid m') eqn:Hv.
    + rewrite (main_valid m' w Hv).
      apply chain_without_relpath_no_addApi. reflexivity.
    + destruct (main_invalid m' w Hv) as (e & _ & ->).
      exists []. rewrite app_nil_r. split; reflexivity.
  - intros Hop Hurl Hns Hbp t g1 api g2 r g3 H1 H2 H3.
    set (m' := set_relpath (Some "") m).
    assert (Hv : valid m' = true).
    { unfold valid, m'.
      cbn [set_relpath gwUrl __ow_meta_namespace basepath relpath operation].
      rewrite Hurl, Hns, Hbp, Hop. reflexivity. }
    rewrite (main_valid m' w Hv).
    exact (chain_delete_entire_api (normalized m') w t g1 H1 api [] g2 H2 r g3
             eq_refl H3).
  - intros Hop Hurl Hns Hbp. unfold main, validateArgs.
    cbn [set_relpath gwUrl __ow_meta_namespace basepath relpath operation].
    rewrite Hurl, Hns, Hbp, Hop. reflexivity.
Qed.

End Properties.

(** ** The endpoint editor *)

Section EditorProperties.

Import EndpointEditor.

Context {Info OpMeta : Type}.
Variable PathNotFound : string -> string.
Variable OperationNotFound : string -> string -> string.

Local Abbreviation removeEndpoint := (removeEndpoint PathNotFound OperationNotFound).

Implicit Types (doc : EndpointDocument Info OpMeta) (ops : gmap string OpMeta).

Lemma delete_empty_iff ops (o : string) :
  delete o ops = ∅ <-> forall o', o' <> o -> ops !! o' = None.
Proof.
  split.
  - intros Hd o' Hne. rewrite <- (lookup_delete_ne ops o o') by congruence.
    rewrite Hd. apply lookup_empty.
  - intros Hall. apply map_eq. intros o'. rewrite lookup_empty.
    destruct (decide (o = o')) as [->|Hne].
    + apply lookup_delete_eq.
    + rewrite lookup_delete_ne by exact Hne. apply Hall. congruence.
Qed.

Lemma removeEndpoint_no_path doc (op : option string) (p : string) :
  paths doc !! p = None ->
  removeEndpoint doc (mkEndpoint op (Some p)) = ErrMsg (PathNotFound p).
Proof.
  intros Hp. unfold EndpointEditor.removeEndpoint.
  cbn [gatewayPath Js.to_string]. rewrite Hp. reflexivity.
Qed.

Lemma removeEndpoint_no_operation doc ops (o p : string) :
  Js.truthy (Some o) = true ->
  paths doc !! p = Some ops -> ops !! o = None ->
  removeEndpoint doc (mkEndpoint (Some o) (Some p)) = ErrMsg (OperationNotFound p o).
Proof.
  intros Hset Hp Ho. unfold EndpointEditor.removeEndpoint.
  cbn [gatewayMethod gatewayPath Js.to_string]. rewrite Hp, Hset, Ho. reflexivity.
Qed.

(** Removing the whole path. *)
Lemma removeEndpoint_path doc ops (op : option string) (p : string) :
  Js.truthy op = false ->
  paths doc !! p = Some ops ->
  removeEndpoint doc (mkEndpoint op (Some p))
  = EditedSwagger (mkEndpointDocument (doc_info doc) (delete p (paths doc))).
Proof.
  intros Hunset Hp. unfold EndpointEditor.removeEndpoint.
  cbn [gatewayMethod gatewayPath Js.to_string]. rewrite Hp, Hunset. reflexivity.
Qed.

(** Removing one operation: the edited document differs from the given one
    in that operation alone, and loses the path with its last operation. *)
Lemma removeEndpoint_operation doc ops (o p : string) :
  Js.truthy (Some o) = true ->
  paths doc !! p = Some ops -> is_Some (ops !! o) ->
  exists doc',
    removeEndpoint doc (mkEndpoint (Some o) (Some p)) = EditedSwagger doc' /\
    doc_info doc' = doc_info doc /\
    operation_at doc' p o = None /\
    (forall o', o' <> o -> operation_at doc' p o' = operation_at doc p o') /\
    (forall q, q <> p -> paths doc' !! q = paths doc !! q) /\
    ((forall o', o' <> o -> ops !! o' = None) -> paths doc' !! p = None) /\
    ((exists o', o' <> o /\ is_Some (ops !! o')) -> paths doc' !! p = Some (delete o ops)).
Proof.
  intros Hset Hp [meta Ho]. unfold EndpointEditor.removeEndpoint.
  cbn [gatewayMethod gatewayPath Js.to_string]. rewrite Hp, Hset, Ho. cbv zeta.
  destruct (size (delete o ops) =? 0)%nat eqn:Hsize.
  - apply Nat.eqb_eq, map_size_empty_iff in Hsize.
    pose proof (proj1 (delete_empty_iff ops o) Hsize) as Hlast.
    eexists. split; [reflexivity|]. unfold operation_at. simpl.
    repeat split.
    + rewrite lookup_delete_eq. reflexivity.
    + intros o' Hne. rewrite lookup_delete_eq, Hp. symmetry. apply Hlast, Hne.
    + intros q Hne. apply lookup_delete_ne. congruence.
    + intros _. apply lookup_delete_eq.
    + intros (o' & Hne & [x Hx]). rewrite (Hlast o' Hne) in Hx. discriminate.
  - apply Nat.eqb_neq in Hsize.
    assert (Hrest : delete o ops <> ∅) by (intros Hd; apply Hsize, map_size_empty_iff, Hd).
    eexists. split; [reflexivity|]. unfold operation_at. simpl.
    repeat split.
    + rewrite lookup_insert_eq. apply lookup_delete_eq.
    + intros o' Hne. rewrite lookup_insert_eq, Hp. apply lookup_delete_ne. congruence.
    + intros q Hne. apply lookup_insert_ne. congruence.
    + intros Hlast. exfalso. apply Hrest, delete_empty_iff, Hlast.
    + intros _. apply lookup_insert_eq.
Qed.

Section EditedWorkflow.

Context {Native : Type}.
Variable base64 : string -> string.
Variable generate : GwApi Native -> EndpointDocument Info OpMeta.
Variable G : GatewayClient Native (EndpointDocument Info OpMeta).

Local Abbreviation E := (env PathNotFound OperationNotFound base64 generate).

(** C6: in a partial delete (the message passes validation and has a
    [relpath]; tenant and API are resolved), when the document of the API
    has no entry for the path, or has one without the operation asked for,
    the workflow fails with the text of [PathNotFound], respectively of
    [OperationNotFound], and the two lookups are the only requests made:
    nothing is sent to [addApiToGateway]. *)
Theorem missing_endpoint_fails_without_replace (m : Message) (w : World G)
    (t : Tenant) (g1 : gw_state G) (api : GwApi Native) (g2 : gw_state G) (p : string) :
  valid m = true ->
  relpath m = Some p -> Js.truthy (relpath m) = true ->
  gw_getTenants G (gwInfo_of E m) (namespace_of m) (tenantInstance_of m) (gateway w)
    = (Resolved [t], g1) ->
  gw_getApis G (gwInfo_of E m) (tenant_id t) (basepath m) g1 = (Resolved [api], g2) ->
  paths (generate api) !! p = None \/
  (exists ops o, paths (generate api) !! p = Some ops /\
                 operation m = Some o /\ Js.truthy (operation m) = true /\
                 ops !! Js.toLowerCase o = None) ->
  exists msg,
    main E G (Some m) w =
    (Rejected (deletion_failure msg),
     mkWorld g2 (calls w ++ [CallGetTenants (gwInfo_of E m) (namespace_of m)
                                            (tenantInstance_of m);
                              CallGetApis (gwInfo_of E m) (tenant_id t) (basepath m)]))
    /\ (paths (generate api) !! p = None -> msg = PathNotFound p)
    /\ (forall ops, paths (generate api) !! p = Some ops ->
        exists o, operation m = Some o /\ msg = OperationNotFound p (Js.toLowerCase o)).
Proof.
  intros Hv Hp Hrel H1 H2 Hmissing.
  rewrite (main_valid E G m w Hv).
  destruct Hmissing as [Hnone|(ops & o & Hsome & Hop & Hset & Hnop)].
  2: assert (Hset' : Js.truthy (Some (Js.toLowerCase o)) = true)
       by (rewrite <- Hset, Hop; apply (truthy_toLowerCase (Some o))).
  - exists (PathNotFound p). split; [|split].
    + apply (chain_edit_error E G (normalized m) w t g1 H1 api [] g2 H2); [exact Hrel|].
      cbn [normalized set_operation operation relpath generateSwaggerApiFromGwApi
           removeEndpointFromSwaggerApi env].
      rewrite Hp. apply removeEndpoint_no_path, Hnone.
    + reflexivity.
    + intros ops Hsome. congruence.
  - exists (OperationNotFound p (Js.toLowerCase o)). split; [|split].
    + apply (chain_edit_error E G (normalized m) w t g1 H1 api [] g2 H2); [exact Hrel|].
      cbn [normalized set_operation operation relpath generateSwaggerApiFromGwApi
           removeEndpointFromSwaggerApi env].
      rewrite Hp, Hop. apply (removeEndpoint_no_operation _ ops); assumption.
    + intros Hnone. congruence.
    + intros ops' _. exists o. split; [exact Hop|reflexivity].
Qed.

(** C7: in a partial delete with a [relpath] and an [operation] that the
    document of the resolved API has (the operation in lower case), the
    document sent to [addApiToGateway] has lost that operation under that
    path and nothing else: the other operations of the path and all other
    paths are as in the document of the API, as is the rest of the document;
    the path entry is gone exactly when this was its only operation. *)
Theorem partial_delete_removes_one_operation (m : Message) (w : World G)
    (t : Tenant) (g1 : gw_state G) (api : GwApi Native) (g2 : gw_state G)
    (p o : string) (ops : gmap string OpMeta) :
  valid m = true ->
  relpath m = Some p -> Js.truthy (relpath m) = true ->
  operation m = Some o -> Js.truthy (operation m) = true ->
  gw_getTenants G (gwInfo_of E m) (namespace_of m) (tenantInstance_of m) (gateway w)
    = (Resolved [t], g1) ->
  gw_getApis G (gwInfo_of E m) (tenant_id t) (basepath m) g1 = (Resolved [api], g2) ->
  paths (generate api) !! p = Some ops ->
  is_Some (ops !! Js.toLowerCase o) ->
  exists doc',
    let answer :=
      gw_addApiToGateway G (gwInfo_of E m) (api_tenantId api) doc' (api_id api) g2 in
    main E G (Some m) w =
    (final_outcome (fst answer),
     mkWorld (snd answer)
             (calls w ++ [CallGetTenants (gwInfo_of E m) (namespace_of m)
                                         (tenantInstance_of m);
                          CallGetApis (gwInfo_of E m) (tenant_id t) (basepath m);
                          CallAddApi (gwInfo_of E m) (api_tenantId api) doc' (api_id api)]))
    /\ doc_info doc' = doc_info (generate api)
    /\ operation_at doc' p (Js.toLowerCase o) = None
    /\ (forall o', o' <> Js.toLowerCase o ->
        operation_at doc' p o' = operation_at (generate api) p o')
    /\ (forall q, q <> p -> paths doc' !! q = paths (generate api) !! q)
    /\ ((forall o', o' <> Js.toLowerCase o -> ops !! o' = None) -> paths doc' !! p = None)
    /\ ((exists o', o' <> Js.toLowerCase o /\ is_Some (ops !! o')) ->
        paths doc' !! p = Some (delete (Js.toLowerCase o) ops)).
Proof.
  intros Hv Hp Hrel Hop Hset H1 H2 Hpath Hhas.
  assert (Hset' : Js.truthy (Some (Js.toLowerCase o)) = true)
    by (rewrite <- Hset, Hop; apply (truthy_toLowerCase (Some o))).
  destruct (removeEndpoint_operation (generate api) ops (Js.toLowerCase o) p
              Hset' Hpath Hhas) as (doc' & Hedit & Hfacts).
  exists doc'. cbv zeta. split; [|exact Hfacts].
  rewrite (main_valid E G m w Hv).
  destruct (gw_addApiToGateway G (gwInfo_of E m) (api_tenantId api) doc' (api_id api) g2)
    as [r g3] eqn:H3.
  apply (chain_replace_api E G (normalized m) w t g1 H1 api [] g2 H2 doc' r g3);
    [exact Hrel| |exact H3].
  cbn [normalized set_operation operation relpath generateSwaggerApiFromGwApi
       removeEndpointFromSwaggerApi env].
  rewrite Hp, Hop. exact Hedit.
Qed.

End EditedWorkflow.

End EditorProperties.

(** ** The workflow on the gateway kept in memory *)

Section Runs.

Import EndpointEditor Sample.

(** C1: the gateway holds two APIs of the tenant at [/books] and the API
    lookup answers with both. The workflow does not fail: it goes on with
    the first of the two, asks the gateway to delete it, and succeeds. *)
Theorem main_deletes_first_of_ambiguous_apis :
  gw_getApis G info "tenant-guest" (Some "/books") [books; books_again]
    = (Resolved [books; books_again], [books; books_again])
  /\
  main E G (Some (request_for (Some "guest") None None None)) (world [books; books_again])
    = (Resolved tt,
       mkWorld (G := G) [books_again]
               [CallGetTenants info (Some "guest") "openwhisk";
                CallGetApis info "tenant-guest" (Some "/books");
                CallDeleteApi info "api-1"]).
Proof. split; vm_compute; reflexivity. Qed.

(** C8: on the same gateway a removal of the path [/b] runs the edit and
    the replacement after the API lookup found two APIs, and the workflow
    succeeds: the [Multiple APIs found] rejection never reaches the
    [catch]. *)
Theorem main_swallows_ambiguous_api_error :
  fst (main E G (Some (request_for (Some "guest") None (Some "/b") None))
            (world [books; books_again]))
    = Resolved tt
  /\
  is_addApi <$> calls (snd (main E G (Some (request_for (Some "guest") None (Some "/b") None))
                                 (world [books; books_again])))
    = [false; false; true].
Proof. split; vm_compute; reflexivity. Qed.

(** C2, at a message with [namespace] but without [__ow_meta_namespace]
    ([gwUrl] and [basepath] given): validation does not accept it. *)
Lemma plain_namespace_is_not_accepted :
  Js.truthy (namespace (request_for None (Some "guest") None None)) = true /\
  Js.truthy (gwUrl (request_for None (Some "guest") None None)) = true /\
  Js.truthy (basepath (request_for None (Some "guest") None None)) = true /\
  __ow_meta_namespace (request_for None (Some "guest") None None) = None /\
  fst (validateArgs (Some (request_for None (Some "guest") None None))) <> "" /\
  main E G (Some (request_for None (Some "guest") None None)) (world [books])
    = (Rejected "__ow_meta_namespace is required.", world [books]).
Proof. repeat split; vm_compute; congruence. Qed.

Lemma namespace_override_is_required_witness :
  main E G (Some (request_for None (Some "guest") None None)) (world [books])
    = (Rejected "__ow_meta_namespace is required.", world [books])
  /\
  namespace_of (request_for (Some "guest") (Some "other") None None) = Some "guest".
Proof.
  split.
  - apply (proj1 (namespace_override_is_required E G
                    (request_for None (Some "guest") None None) (world [books])));
      reflexivity.
  - apply (proj2 (namespace_override_is_required E G
                    (request_for (Some "guest") (Some "other") None None) (world [books]))).
    reflexivity.
Defined.

Lemma invalid_input_rejected_without_gateway_call_witness :
  exists e,
    InputError (request_for (Some "guest") None None (Some "get")) e /\
    main E G (Some (request_for (Some "guest") None None (Some "get"))) (world [books])
      = (Rejected e, world [books]).
Proof.
  apply (invalid_input_rejected_without_gateway_call E G
           (request_for (Some "guest") None None (Some "get")) (world [books])).
  right. right. right. split; reflexivity.
Defined.

Lemma tenant_resolution_witness :
  exists rest,
    calls (snd (main E G (Some (request_for (Some "guest") None None None)) (world [books])))
    = [CallGetTenants info (Some "guest") "openwhisk";
       CallGetApis info "tenant-guest" (Some "/books")] ++ rest.
Proof.
  exact (tenant_resolution E G (request_for (Some "guest") None None None) (world [books])
           [mkTenant "tenant-guest"] [books] eq_refl eq_refl).
Defined.

Lemma entire_api_delete_witness :
  main E G (Some (request_for (Some "guest") None None None)) (world [books])
    = (Resolved tt,
       mkWorld (G := G) []
               [CallGetTenants info (Some "guest") "openwhisk";
                CallGetApis info "tenant-guest" (Some "/books");
                CallDeleteApi info "api-1"]).
Proof.
  apply (proj1 (entire_api_delete E G (request_for (Some "guest") None None None)
                  (world [books]) (mkTenant "tenant-guest") [books] books [books]
                  (Resolved tt) []
                  eq_refl eq_refl eq_refl eq_refl eq_refl)).
Defined.

Lemma empty_relpath_as_absent_witness :
  main E G (Some (request_for (Some "guest") None (Some "") None)) (world [books])
    = (Resolved tt,
       mkWorld (G := G) []
               [CallGetTenants info (Some "guest") "openwhisk";
                CallGetApis info "tenant-guest" (Some "/books");
                CallDeleteApi info "api-1"])
  /\
  main E G (Some (request_for (Some "guest") None (Some "") None)) (world [books])
    = main E G (Some (request_for (Some "guest") None None None)) (world [books])
  /\
  main E G (Some (request_for (Some "guest") None (Some "") (Some "get"))) (world [books])
    = (Rejected "When specifying an operation, the relpath is required.", world [books]).
Proof.
  split; [|split].
  - exact (proj1 (proj2 (proj2 (empty_relpath_as_absent E G
                                  (request_for (Some "guest") None None None)
                                  (world [books]))))
                 eq_refl eq_refl eq_refl eq_refl
                 (mkTenant "tenant-guest") [books] books [books] (Resolved tt) []
                 eq_refl eq_refl eq_refl).
  - exact (proj1 (empty_relpath_as_absent E G
                    (request_for (Some "guest") None None None) (world [books]))).
  - apply (proj2 (proj2 (proj2 (empty_relpath_as_absent E G
                                  (request_for (Some "guest") None None (Some "get"))
                                  (world [books]))))); reflexivity.
Defined.

Lemma missing_endpoint_fails_without_replace_witness :
  fst (main E G (Some (request_for (Some "guest") None (Some "/b") (Some "PUT")))
            (world [books]))
    = Rejected "API deletion failure: path /b with operation put does not exist in the API".
Proof.
  destruct (missing_endpoint_fails_without_replace PathNotFound OperationNotFound
              (fun s => "b64(" +:+ s +:+ ")") api_native G
              (request_for (Some "guest") None (Some "/b") (Some "PUT")) (world [books])
              (mkTenant "tenant-guest") [books] books [books] "/b"
              eq_refl eq_refl eq_refl eq_refl eq_refl
              (or_intror (ex_intro _ (<["get" := "action/info"]> ∅)
                 (ex_intro _ "PUT" (conj eq_refl (conj eq_refl (conj eq_refl eq_refl)))))))
    as (msg & Hmain & _ & Hop).
  destruct (Hop (<["get" := "action/info"]> ∅) eq_refl) as (o & Ho & ->).
  injection Ho as <-. exact (f_equal fst Hmain).
Defined.

Lemma partial_delete_removes_one_operation_witness :
  exists doc' : Doc,
    last (calls (snd (main E G (Some (request_for (Some "guest") None (Some "/a") (Some "GET")))
                           (world [books]))))
      = Some (CallAddApi info "tenant-guest" doc' "api-1") /\
    operation_at doc' "/a" "get" = None /\
    operation_at doc' "/a" "post" = Some "action/add" /\
    operation_at doc' "/b" "get" = Some "action/info".
Proof.
  destruct (partial_delete_removes_one_operation PathNotFound OperationNotFound
              (fun s => "b64(" +:+ s +:+ ")") api_native G
              (request_for (Some "guest") None (Some "/a") (Some "GET")) (world [books])
              (mkTenant "tenant-guest") [books] books [books] "/a" "GET"
              (<["get" := "action/list"]> (<["post" := "action/add"]> ∅))
              eq_refl eq_refl eq_refl eq_refl eq_refl eq_refl eq_refl eq_refl
              (ex_intro _ "action/list" eq_refl))
    as (doc' & Hmain & _ & Hgone & Hsiblings & Hpaths & _).
  exists doc'. split; [|split; [|split]].
  - exact (f_equal (fun result => last (calls (snd result))) Hmain).
  - exact Hgone.
  - rewrite (Hsiblings "post") by discriminate. reflexivity.
  - unfold operation_at. rewrite (Hpaths "/b") by discriminate. reflexivity.
Defined.

End Runs.

(** ** More on validateArgs *)

(** X1: [validateArgs] reports the first test that fails, in the order
    [gwUrl], [__ow_meta_namespace], [basepath], operation without relpath,
    whatever the later fields hold, and leaves the message as it was. *)
Theorem validateArgs_reports_first_failure (m : Message) :
  (Js.truthy (gwUrl m) = false ->
   validateArgs (Some m) = ("gwUrl is required.", Some m))
  /\
  (Js.truthy (gwUrl m) = true -> Js.truthy (__ow_meta_namespace m) = false ->
   validateArgs (Some m) = ("__ow_meta_namespace is required.", Some m))
  /\
  (Js.truthy (gwUrl m) = true -> Js.truthy (__ow_meta_namespace m) = true ->
   Js.truthy (basepath m) = false ->
   validateArgs (Some m) = ("basepath is required.", Some m))
  /\
  (Js.truthy (gwUrl m) = true -> Js.truthy (__ow_meta_namespace m) = true ->
   Js.truthy (basepath m) = true ->
   Js.truthy (relpath m) = false -> Js.truthy (operation m) = true ->
   validateArgs (Some m)
   = ("When specifying an operation, the relpath is required.", Some m)).
Proof.
  unfold validateArgs. repeat split.
  - intros ->. reflexivity.
  - intros -> ->. reflexivity.
  - intros -> -> ->. reflexivity.
  - intros -> -> -> -> ->. reflexivity.
Qed.

(** X2: [validateArgs] returns the empty text exactly for a message that is
    there and has [gwUrl], [__ow_meta_namespace] and [basepath], and a
    [relpath] if it has an [operation]; the message it leaves is then the
    given one with the operation in lower case, every other field as it
    was. *)
Theorem validateArgs_accepts_iff (message result : option Message) :
  validateArgs message = ("", result) <->
  exists m,
    message = Some m /\
    Js.truthy (gwUrl m) = true /\
    Js.truthy (__ow_meta_namespace m) = true /\
    Js.truthy (basepath m) = true /\
    (Js.truthy (operation m) = true -> Js.truthy (relpath m) = true) /\
    result = Some (set_operation (Js.toLowerCase <$> operation m) m).
Proof.
  split.
  - destruct message as [m|]; [|discriminate].
    intros Hval. exists m. split; [reflexivity|].
    destruct (valid m) eqn:Hv.
    + rewrite (validateArgs_valid m Hv) in Hval. injection Hval as <-.
      unfold valid in Hv.
      destruct (Js.truthy (gwUrl m)), (Js.truthy (__ow_meta_namespace m)),
        (Js.truthy (basepath m)), (Js.truthy (relpath m)), (Js.truthy (operation m));
        simpl in Hv; try discriminate; repeat split; congruence.
    + destruct (validateArgs_invalid m Hv) as (e & _ & Ht & He).
      rewrite He in Hval. injection Hval as -> _. discriminate.
  - intros (m & -> & H1 & H2 & H3 & H4 & ->).
    apply (validateArgs_valid m). unfold valid. rewrite H1, H2, H3. simpl.
    destruct (Js.truthy (operation m)); [|rewrite andb_false_r; reflexivity].
    rewrite (H4 eq_refl). reflexivity.
Qed.

(** X3: validating the message [validateArgs] leaves gives the same answer
    again: the lower case of the operation is stable, and a rejected
    message is rejected for the same reason. *)
Theorem validateArgs_idempotent (message : option Message) :
  validateArgs (snd (validateArgs message)) = validateArgs message.
Proof.
  destruct message as [m|]; [|reflexivity].
  destruct (valid m) eqn:Hv.
  - rewrite (validateArgs_valid m Hv). cbn [snd].
    rewrite validateArgs_valid by (rewrite valid_normalized; exact Hv).
    rewrite normalized_idem. reflexivity.
  - destruct (validateArgs_invalid m Hv) as (e & _ & _ & He).
    rewrite He. cbn [snd]. exact He.
Qed.

(** ** More on main *)

Section Coverage.

Context {Native Swagger : Type}.
Variable E : Env Native Swagger.
Variable G : GatewayClient Native Swagger.

(** The three kinds of run of [main]. *)
Lemma main_cases (message : option Message) (w : World G) :
  (message = None /\
   main E G message w
   = (Rejected "Internal error.  A message parameter was not supplied.", w))
  \/
  (exists m e, message = Some m /\ valid m = false /\ InputError m e /\
               main E G message w = (Rejected e, w))
  \/
  (exists m, message = Some m /\ valid m = true /\
             main E G message w = chain E G (normalized m) w).
Proof.
  destruct message as [m|]; [|left; split; reflexivity].
  right. destruct (valid m) eqn:Hv.
  - right. exists m. split; [reflexivity|]. split; [exact Hv|].
    apply main_valid, Hv.
  - left. destruct (main_invalid E G m w Hv) as (e & He & Hmain).
    exists m, e. repeat split; assumption.
Qed.

(** X4: when the workflow is rejected, either the message failed the
    validation, the reason is the text of [validateArgs] as it is (no
    prefix) and neither a request was made nor the gateway touched; or the
    tenant lookup was made and the reason is [API deletion failure: ]
    followed by a cause. *)
Theorem main_rejection_dichotomy (message : option Message) (w w' : World G)
    (reason : string) :
  main E G message w = (Rejected reason, w') ->
  (w' = w /\ reason = fst (validateArgs message) /\ Js.truthy_string reason = true)
  \/
  (exists m cause rest,
     message = Some m /\ fst (validateArgs message) = "" /\
     reason = "API deletion failure: " +:+ cause /\
     calls w' = calls w ++ CallGetTenants (gwInfo_of E m) (__ow_meta_namespace m)
                                          (tenantInstance_of m) :: rest).
Proof.
  intros Hmain.
  destruct (main_cases message w) as [[-> Hnone]|[(m & e & -> & Hv & He & Hbad)|(m & -> & Hv & Hrun)]].
  - left. rewrite Hnone in Hmain. injection Hmain as <- <-. repeat split.
  - left. rewrite Hbad in Hmain. injection Hmain as <- <-.
    destruct (validateArgs_invalid m Hv) as (e' & _ & Ht & Hval).
    assert (e' = e) as ->.
    { pose proof Hbad as Hbad'. unfold main in Hbad'. rewrite Hval, Ht in Hbad'.
      injection Hbad' as ->. reflexivity. }
    rewrite Hval. repeat split. exact Ht.
  - right. rewrite Hrun in Hmain.
    destruct (chain_rejection_prefixed E G _ _ _ _ Hmain) as [cause ->].
    destruct (chain_starts_with_getTenants E G (normalized m) w) as [rest Hrest].
    rewrite Hmain in Hrest. cbn [snd] in Hrest.
    exists m, cause, rest. split; [reflexivity|].
    split; [rewrite (validateArgs_valid m Hv); reflexivity|].
    split; [reflexivity|].
    rewrite Hrest, <- (namespace_of_override m (valid_override m Hv)). reflexivity.
Qed.

(** X5: the workflow succeeds only for a message that passes the
    validation and after exactly three requests, the tenant lookup, the
    API lookup and one request that deletes the API (when the message has
    no [relpath]) or replaces it (when it has one). *)
Theorem main_success_means_three_requests (message : option Message) (w : World G) :
  fst (main E G message w) = Resolved tt ->
  exists m c2 c3,
    message = Some m /\ fst (validateArgs message) = "" /\
    calls (snd (main E G message w))
    = calls w ++ [CallGetTenants (gwInfo_of E m) (__ow_meta_namespace m)
                                 (tenantInstance_of m); c2; c3] /\
    is_getApis c2 = true /\
    is_deleteApi c3 = negb (Js.truthy (relpath m)) /\
    is_addApi c3 = Js.truthy (relpath m).
Proof.
  intros Hok.
  destruct (main_cases message w) as [[-> Hnone]|[(m & e & -> & Hv & He & Hbad)|(m & -> & Hv & Hrun)]].
  - rewrite Hnone in Hok. discriminate.
  - rewrite Hbad in Hok. discriminate.
  - rewrite Hrun in Hok |- *.
    pose proof (namespace_of_override m (valid_override m Hv)) as Hns.
    exists m.
    destruct (chain_way E G (normalized m) w)
      as [| | | | |? ? ? ? ? r ? _ _ Hrel _| |? ? ? ? ? ? r ? _ _ Hrel _ _];
      cbn [fst] in Hok; try discriminate; cbn [snd calls];
      cbn [normalized set_operation relpath] in Hrel;
      eexists _, _; (split; [reflexivity|]);
      (split; [rewrite (validateArgs_valid m Hv); reflexivity|]);
      (split; [rewrite <- Hns; reflexivity|]);
      rewrite Hrel; repeat split.
Qed.

(** X6: the requests of one run of [main] are at most three, in the order
    tenant lookup, API lookup, then one request that either deletes or
    replaces the API (never both), and all carry the [gwInfo] made from the
    message. *)
Theorem main_follows_protocol (message : option Message) (w : World G) :
  exists requests,
    calls (snd (main E G message w)) = calls w ++ requests /\
    follows_protocol requests = true /\
    forall m, message = Some m ->
              Forall (fun c => call_gwInfo c = gwInfo_of E m) requests.
Proof.
  destruct (main_cases message w) as [[-> Hnone]|[(m & e & -> & Hv & He & Hbad)|(m & -> & Hv & Hrun)]].
  - rewrite Hnone. exists []. rewrite app_nil_r.
    split; [reflexivity|split; [reflexivity|]]. intros m Hm. discriminate.
  - rewrite Hbad. exists []. rewrite app_nil_r.
    split; [reflexivity|split; [reflexivity|]]. intros m' _. constructor.
  - rewrite Hrun.
    destruct (chain_way E G (normalized m) w); cbn [snd calls];
      eexists; (split; [reflexivity|]); (split; [reflexivity|]);
      intros m' [= <-]; repeat constructor.
Qed.

(** What the chain reads of the message. *)
Lemma chain_ext (m1 m2 : Message) :
  gwInfo_of E m1 = gwInfo_of E m2 ->
  namespace_of m1 = namespace_of m2 ->
  tenantInstance_of m1 = tenantInstance_of m2 ->
  basepath m1 = basepath m2 -> relpath m1 = relpath m2 -> operation m1 = operation m2 ->
  chain E G m1 = chain E G m2.
Proof.
  intros Hinfo Hns Hinst Hbp Hrel Hop. run_chain.
  rewrite Hinfo, Hns, Hinst, Hbp, Hrel, Hop. reflexivity.
Qed.

(** What [main] reads of the message. *)
Lemma main_ext (m1 m2 : Message) (w : World G) :
  gwUrl m1 = gwUrl m2 -> __ow_meta_namespace m1 = __ow_meta_namespace m2 ->
  basepath m1 = basepath m2 -> relpath m1 = relpath m2 -> operation m1 = operation m2 ->
  gwInfo_of E m1 = gwInfo_of E m2 ->
  tenantInstance_of m1 = tenantInstance_of m2 ->
  main E G (Some m1) w = main E G (Some m2) w.
Proof.
  intros Hurl Hns Hbp Hrel Hop Hinfo Hinst.
  assert (Hvalid : valid m1 = valid m2)
    by (unfold valid; rewrite Hurl, Hns, Hbp, Hrel, Hop; reflexivity).
  destruct (valid m2) eqn:Hv2.
  - rewrite (main_valid E G m1 w Hvalid), (main_valid E G m2 w Hv2).
    rewrite (chain_ext (normalized m1) (normalized m2)); try reflexivity; try assumption.
    + change (namespace_of m1 = namespace_of m2).
      rewrite !namespace_of_override by (apply valid_override; assumption).
      exact Hns.
    + cbn. rewrite Hop. reflexivity.
  - unfold main, validateArgs. rewrite Hurl, Hns, Hbp, Hrel, Hop.
    unfold valid in Hv2.
    destruct (Js.truthy (gwUrl m2)), (Js.truthy (__ow_meta_namespace m2)),
      (Js.truthy (basepath m2)), (Js.truthy (relpath m2)), (Js.truthy (operation m2));
      simpl in Hv2; try discriminate; reflexivity.
Qed.

(** X7: the plain [namespace] field of the message has no part in the
    result: the namespace of the tenant lookup is the
    [__ow_meta_namespace] field, which validation requires. *)
Theorem main_ignores_plain_namespace (v : option string) (m : Message) (w : World G) :
  main E G (Some (set_namespace v m)) w = main E G (Some m) w.
Proof. apply main_ext; reflexivity. Qed.

(** X8: a message without [tenantInstance] (or with the empty string) is
    run as the same message with the tenant instance [openwhisk]. *)
Theorem tenantInstance_defaults_to_openwhisk (m : Message) (w : World G) :
  Js.truthy (tenantInstance m) = false ->
  main E G (Some m) w = main E G (Some (set_tenantInstance (Some "openwhisk") m)) w.
Proof.
  intros Hinst. apply main_ext; try reflexivity.
  unfold tenantInstance_of. cbn [set_tenantInstance tenantInstance].
  destruct (tenantInstance m) as [[|c s]|]; [reflexivity|discriminate|reflexivity].
Qed.

(** X9: the basic-authentication token is made only from a user and a
    password that are both given: with one of them missing [gwInfo] has no
    [gwAuth], and the run is the run of the message without credentials. *)
Theorem partial_credentials_are_dropped (m : Message) (w : World G) :
  Js.truthy (gwUser m) = false \/ Js.truthy (gwPwd m) = false ->
  gwInfo_of E m = mkGwInfo (gwUrl m) None /\
  main E G (Some m) w = main E G (Some (set_credentials None None m)) w.
Proof.
  intros Hcred.
  assert (Hinfo : gwInfo_of E m = mkGwInfo (gwUrl m) None).
  { unfold gwInfo_of. destruct Hcred as [-> | ->]; [|rewrite andb_false_r]; reflexivity. }
  split; [exact Hinfo|].
  apply main_ext; try reflexivity. exact Hinfo.
Qed.

(** X10: for a message that passes validation, when the tenant lookup
    answers with one tenant and the API lookup with no API, the workflow is
    rejected with [API deletion failure: API <basepath> does not exist.]
    and the two lookups are the only requests. *)
Theorem api_not_found (m : Message) (w : World G)
    (t : Tenant) (g1 g2 : gw_state G) (bp : string) :
  valid m = true ->
  basepath m = Some bp ->
  gw_getTenants G (gwInfo_of E m) (namespace_of m) (tenantInstance_of m) (gateway w)
    = (Resolved [t], g1) ->
  gw_getApis G (gwInfo_of E m) (tenant_id t) (basepath m) g1 = (Resolved [], g2) ->
  main E G (Some m) w =
  (Rejected ("API deletion failure: API " +:+ bp +:+ " does not exist."),
   mkWorld g2 (calls w ++ [CallGetTenants (gwInfo_of E m) (namespace_of m)
                                          (tenantInstance_of m);
                            CallGetApis (gwInfo_of E m) (tenant_id t) (basepath m)])).
Proof.
  intros Hv Hbp H1 H2. rewrite (main_valid E G m w Hv).
  rewrite (chain_no_api E G (normalized m) w t g1 H1 g2 H2).
  cbn [normalized set_operation basepath]. rewrite Hbp. reflexivity.
Qed.

(** X11: for a message that passes validation, a lookup the gateway
    rejects ends the workflow: it is rejected with [API deletion failure: ]
    and the gateway's reason, and the failed lookup is the last request. *)
Theorem lookup_failure_ends_workflow (m : Message) (w : World G) (reason : string) :
  valid m = true ->
  (forall g1,
     gw_getTenants G (gwInfo_of E m) (namespace_of m) (tenantInstance_of m) (gateway w)
       = (Rejected reason, g1) ->
     main E G (Some m) w =
     (Rejected ("API deletion failure: " +:+ reason),
      mkWorld g1 (calls w ++ [CallGetTenants (gwInfo_of E m) (namespace_of m)
                                             (tenantInstance_of m)])))
  /\
  (forall t g1 g2,
     gw_getTenants G (gwInfo_of E m) (namespace_of m) (tenantInstance_of m) (gateway w)
       = (Resolved [t], g1) ->
     gw_getApis G (gwInfo_of E m) (tenant_id t) (basepath m) g1 = (Rejected reason, g2) ->
     main E G (Some m) w =
     (Rejected ("API deletion failure: " +:+ reason),
      mkWorld g2 (calls w ++ [CallGetTenants (gwInfo_of E m) (namespace_of m)
                                             (tenantInstance_of m);
                               CallGetApis (gwInfo_of E m) (tenant_id t) (basepath m)]))).
Proof.
  intros Hv. split.
  - intros g1 H1. rewrite (main_valid E G m w Hv).
    exact (chain_getTenants_rejected E G (normalized m) w reason g1 H1).
  - intros t g1 g2 H1 H2. rewrite (main_valid E G m w Hv).
    exact (chain_getApis_rejected E G (normalized m) w t g1 H1 reason g2 H2).
Qed.

(** X12: in a partial delete (the message passes validation and has a
    [relpath]; one tenant and one API are found), the document sent to
    [addApiToGateway] is what [removeEndpointFromSwaggerApi] returns for the
    document [generateSwaggerApiFromGwApi] makes of the API and the endpoint
    of the [relpath] and the operation in lower case; it is sent for the
    [tenantId] and the [id] of the API object, and the outcome of that
    request is the outcome of the workflow. *)
Theorem partial_delete_sends_edited_document (m : Message) (w : World G)
    (t : Tenant) (g1 : gw_state G) (api : GwApi Native) (g2 : gw_state G)
    (doc : Swagger) (r : Settled unit) (g3 : gw_state G) :
  valid m = true ->
  Js.truthy (relpath m) = true ->
  gw_getTenants G (gwInfo_of E m) (namespace_of m) (tenantInstance_of m) (gateway w)
    = (Resolved [t], g1) ->
  gw_getApis G (gwInfo_of E m) (tenant_id t) (basepath m) g1 = (Resolved [api], g2) ->
  removeEndpointFromSwaggerApi E (generateSwaggerApiFromGwApi E api)
    (mkEndpoint (Js.toLowerCase <$> operation m) (relpath m)) = EditedSwagger doc ->
  gw_addApiToGateway G (gwInfo_of E m) (api_tenantId api) doc (api_id api) g2 = (r, g3) ->
  main E G (Some m) w =
  (final_outcome r,
   mkWorld g3 (calls w ++ [CallGetTenants (gwInfo_of E m) (namespace_of m)
                                          (tenantInstance_of m);
                            CallGetApis (gwInfo_of E m) (tenant_id t) (basepath m);
                            CallAddApi (gwInfo_of E m) (api_tenantId api) doc (api_id api)])).
Proof.
  intros Hv Hrel H1 H2 Hedit H3. rewrite (main_valid E G m w Hv).
  exact (chain_replace_api E G (normalized m) w t g1 H1 api [] g2 H2 doc r g3 Hrel Hedit H3).
Qed.

(** X13: in a partial delete, when [removeEndpointFromSwaggerApi] returns a
    text instead of a document, the workflow is rejected with [API deletion
    failure: ] and that text, and nothing is sent to the gateway after the
    two lookups. *)
Theorem edit_error_is_reported (m : Message) (w : World G)
    (t : Tenant) (g1 : gw_state G) (api : GwApi Native) (g2 : gw_state G)
    (msg : string) :
  valid m = true ->
  Js.truthy (relpath m) = true ->
  gw_getTenants G (gwInfo_of E m) (namespace_of m) (tenantInstance_of m) (gateway w)
    = (Resolved [t], g1) ->
  gw_getApis G (gwInfo_of E m) (tenant_id t) (basepath m) g1 = (Resolved [api], g2) ->
  removeEndpointFromSwaggerApi E (generateSwaggerApiFromGwApi E api)
    (mkEndpoint (Js.toLowerCase <$> operation m) (relpath m)) = ErrMsg msg ->
  main E G (Some m) w =
  (Rejected ("API deletion failure: " +:+ msg),
   mkWorld g2 (calls w ++ [CallGetTenants (gwInfo_of E m) (namespace_of m)
                                          (tenantInstance_of m);
                            CallGetApis (gwInfo_of E m) (tenant_id t) (basepath m)])).
Proof.
  intros Hv Hrel H1 H2 Hedit. rewrite (main_valid E G m w Hv).
  exact (chain_edit_error E G (normalized m) w t g1 H1 api [] g2 H2 msg Hrel Hedit).
Qed.

(** X14: without a [relpath] the document functions of [utils.js] have no
    part in the run: two environments with the same base64 encoding give
    the same result. *)
Theorem entire_delete_reads_no_document (E' : Env Native Swagger)
    (message : option Message) (w : World G) :
  base64_of_ascii E' = base64_of_ascii E ->
  (forall m, message = Some m -> Js.truthy (relpath m) = false) ->
  main E' G message w = main E G message w.
Proof.
  intros Hb64 Hrel.
  destruct message as [m|]; [|reflexivity].
  specialize (Hrel m eq_refl).
  assert (Hinfo : gwInfo_of E' m = gwInfo_of E m)
    by (unfold gwInfo_of; rewrite Hb64; reflexivity).
  destruct (valid m) eqn:Hv.
  - rewrite !main_valid by exact Hv.
    change (gwInfo_of E' (normalized m) = gwInfo_of E (normalized m)) in Hinfo.
    change (Js.truthy (relpath (normalized m)) = false) in Hrel.
    run_chain. rewrite Hinfo, Hrel. reflexivity.
  - destruct (validateArgs_invalid m Hv) as (e & _ & Ht & Hval).
    unfold main. rewrite Hval, Ht. reflexivity.
Qed.

End Coverage.

(** ** The added properties on the gateway kept in memory *)

Section CoverageRuns.

Import EndpointEditor Sample.

Lemma validateArgs_reports_first_failure_witness :
  validateArgs (Some (mkMessage None None None None None None None None (Some "GET")))
  = ("gwUrl is required.",
     Some (mkMessage None None None None None None None None (Some "GET"))).
Proof.
  apply (proj1 (validateArgs_reports_first_failure
                  (mkMessage None None None None None None None None (Some "GET")))).
  reflexivity.
Defined.

Lemma validateArgs_accepts_iff_witness :
  validateArgs (Some (request_for (Some "guest") None (Some "/a") (Some "GET")))
  = ("", Some (request_for (Some "guest") None (Some "/a") (Some "get"))).
Proof.
  apply (proj2 (validateArgs_accepts_iff
                  (Some (request_for (Some "guest") None (Some "/a") (Some "GET")))
                  (Some (request_for (Some "guest") None (Some "/a") (Some "get"))))).
  exists (request_for (Some "guest") None (Some "/a") (Some "GET")).
  repeat split.
Defined.

Lemma main_rejection_dichotomy_witness :
  (mkWorld (G := G) [books] [CallGetTenants info (Some "nobody") "openwhisk"] = world [books] /\
   "API deletion failure: No Tenant found for namespace nobody"
   = fst (validateArgs (Some (request_for (Some "nobody") None None None))) /\
   Js.truthy_string "API deletion failure: No Tenant found for namespace nobody" = true)
  \/
  (exists m cause rest,
     Some (request_for (Some "nobody") None None None) = Some m /\
     fst (validateArgs (Some (request_for (Some "nobody") None None None))) = "" /\
     "API deletion failure: No Tenant found for namespace nobody"
     = "API deletion failure: " +:+ cause /\
     calls (mkWorld (G := G) [books] [CallGetTenants info (Some "nobody") "openwhisk"])
     = calls (world [books])
       ++ CallGetTenants (gwInfo_of E m) (__ow_meta_namespace m) (tenantInstance_of m)
       :: rest).
Proof.
  apply (main_rejection_dichotomy E G (Some (request_for (Some "nobody") None None None))
           (world [books])).
  vm_compute. reflexivity.
Defined.

Lemma main_success_means_three_requests_witness :
  exists m c2 c3,
    Some (request_for (Some "guest") None None None) = Some m /\
    fst (validateArgs (Some (request_for (Some "guest") None None None))) = "" /\
    calls (snd (main E G (Some (request_for (Some "guest") None None None)) (world [books])))
    = calls (world [books])
      ++ [CallGetTenants (gwInfo_of E m) (__ow_meta_namespace m) (tenantInstance_of m);
          c2; c3] /\
    is_getApis c2 = true /\
    is_deleteApi c3 = negb (Js.truthy (relpath m)) /\
    is_addApi c3 = Js.truthy (relpath m).
Proof.
  apply (main_success_means_three_requests E G
           (Some (request_for (Some "guest") None None None)) (world [books])).
  vm_compute. reflexivity.
Defined.

Lemma tenantInstance_defaults_to_openwhisk_witness :
  main E G (Some (request_for (Some "guest") None None None)) (world [books])
  = main E G (Some (set_tenantInstance (Some "openwhisk")
                      (request_for (Some "guest") None None None))) (world [books]).
Proof.
  apply (tenantInstance_defaults_to_openwhisk E G
           (request_for (Some "guest") None None None) (world [books])).
  reflexivity.
Defined.

Lemma partial_credentials_are_dropped_witness :
  gwInfo_of E (set_credentials (Some "alice") None (request_for (Some "guest") None None None))
  = info
  /\
  main E G (Some (set_credentials (Some "alice") None
                    (request_for (Some "guest") None None None))) (world [books])
  = main E G (Some (request_for (Some "guest") None None None)) (world [books]).
Proof.
  apply (partial_credentials_are_dropped E G
           (set_credentials (Some "alice") None (request_for (Some "guest") None None None))
           (world [books])).
  right. reflexivity.
Defined.

Lemma api_not_found_witness :
  main E G (Some (request_for (Some "guest") None None None)) (world [])
  = (Rejected "API deletion failure: API /books does not exist.",
     mkWorld (G := G) []
             [CallGetTenants info (Some "guest") "openwhisk";
              CallGetApis info "tenant-guest" (Some "/books")]).
Proof.
  exact (api_not_found E G (request_for (Some "guest") None None None) (world [])
           (mkTenant "tenant-guest") [] [] "/books" eq_refl eq_refl eq_refl eq_refl).
Defined.

Lemma lookup_failure_ends_workflow_witness :
  main E G (Some (request_for (Some "down") None None None)) (world [books])
  = (Rejected "API deletion failure: Error: connect ECONNREFUSED",
     mkWorld (G := G) [books] [CallGetTenants info (Some "down") "openwhisk"]).
Proof.
  exact (proj1 (lookup_failure_ends_workflow E G
                  (request_for (Some "down") None None None) (world [books])
                  "Error: connect ECONNREFUSED" eq_refl)
               [books] eq_refl).
Defined.

Lemma partial_delete_sends_edited_document_witness :
  main E G (Some (request_for (Some "guest") None (Some "/b") None)) (world [books])
  = (Resolved tt,
     mkWorld (G := G)
       [mkGwApi "api-1" "tenant-guest" "/books"
                (mkEndpointDocument tt (delete "/b" (paths books_doc)))]
       [CallGetTenants info (Some "guest") "openwhisk";
        CallGetApis info "tenant-guest" (Some "/books");
        CallAddApi info "tenant-guest"
                   (mkEndpointDocument tt (delete "/b" (paths books_doc))) "api-1"]).
Proof.
  exact (partial_delete_sends_edited_document E G
           (request_for (Some "guest") None (Some "/b") None) (world [books])
           (mkTenant "tenant-guest") [books] books [books]
           (mkEndpointDocument tt (delete "/b" (paths books_doc))) (Resolved tt)
           [mkGwApi "api-1" "tenant-guest" "/books"
                    (mkEndpointDocument tt (delete "/b" (paths books_doc)))]
           eq_refl eq_refl eq_refl eq_refl eq_refl eq_refl).
Defined.

Lemma edit_error_is_reported_witness :
  main E G (Some (request_for (Some "guest") None (Some "/c") None)) (world [books])
  = (Rejected "API deletion failure: path /c does not exist in the API",
     mkWorld (G := G) [books]
             [CallGetTenants info (Some "guest") "openwhisk";
              CallGetApis info "tenant-guest" (Some "/books")]).
Proof.
  exact (edit_error_is_reported E G
           (request_for (Some "guest") None (Some "/c") None) (world [books])
           (mkTenant "tenant-guest") [books] books [books]
           "path /c does not exist in the API"
           eq_refl eq_refl eq_refl eq_refl eq_refl).
Defined.

Lemma entire_delete_reads_no_document_witness :
  main (mkEnv Doc Doc (base64_of_ascii E) api_native (fun _ _ => ErrMsg "no editor"))
       G (Some (request_for (Some "guest") None None None)) (world [books])
  = main E G (Some (request_for (Some "guest") None None None)) (world [books]).
Proof.
  apply (entire_delete_reads_no_document E G
           (mkEnv Doc Doc (base64_of_ascii E) api_native (fun _ _ => ErrMsg "no editor"))
           (Some (request_for (Some "guest") None None None)) (world [books])).
  - reflexivity.
  - intros m [= <-]. reflexivity.
Defined.

End CoverageRuns.
